(** * ModuleOpt: the bot registry, the container monitor and the task queue

    A shallow embedding of [shadow_bot_creator.py] (class [ShadowBotManager])
    and [task_manager.py] (class [TaskManager]).

    Conventions of the embedding.
    - Python [int] is [Z].
    - In [shadow_bot_creator.py] a Python [float] (the psutil percentages,
      [cpu_limit]) is an exact rational [Q].
    - In [task_manager.py] the code is modelled over an arithmetic
      [Float.Arith] of Python's floats, with two instances: [Float.Binary64],
      the IEEE 754 double precision arithmetic CPython computes with, and
      [Float.Exact], the exact rational arithmetic.  A theorem stated for
      every arithmetic holds of the code; a theorem stated for [Float.Exact]
      is about the idealised arithmetic.
    - A method is a computation in the monad [M]: it threads the object's
      state, appends to a trace of the calls made to the outside world
      (stdout, the Docker runtime, the metrics gauges, the webhook, the
      SQLite log) and either returns or raises.
    - What the outside world answers (whether a Docker call or the webhook
      POST raises, what [random] returns, what [stats] reads) is an argument
      of the method.
    - In [task_manager.py] the calls to the Docker runtime and to SQLite are
      taken to return and [stats] to carry all its keys; the webhook POST
      returns or raises ([requests.post] is given no timeout: a POST that
      never returns is outside the model).  Monitors of different containers
      interleave at the granularity of one loop iteration. *)

From Stdlib Require Import ZArith QArith Lia Lqa.
From Stdlib Require Import Floats.SpecFloat.
From stdpp Require Import gmap strings list fin_maps pretty sorting.

(** ** Python values *)

Module Py.

(** The exceptions the modelled code can meet. *)
Inductive Exn :=
| ZeroDivisionError
| IndexError
| AttributeError (msg : string)
| DockerException (msg : string)
| RequestException (msg : string).

(** [int(x)] on a float: truncation towards zero. *)
Definition int (x : Q) : Z := Z.quot (Qnum x) (Z.pos (Qden x)).

(** [str(n)] on an int: its decimal representation. *)
Definition str (n : Z) : string := pretty n.

(** Truthiness of a string or [None]: [None] and the empty string are falsy. *)
Definition truthy (s : option string) : bool :=
  match s with
  | None => false
  | Some s => negb (String.eqb s "")
  end.

(** [str(e)] on an exception. *)
Definition exn_str (e : Exn) : string :=
  match e with
  | ZeroDivisionError => "division by zero"
  | IndexError => "list index out of range"
  | AttributeError msg => msg
  | DockerException msg => msg
  | RequestException msg => msg
  end.

(** [sum(xs)] on ints: a left fold from [0]. *)
Definition sum_int (xs : list Z) : Z := foldl Z.add 0%Z xs.

(** [len(xs)]. *)
Definition len {A} (xs : list A) : Z := Z.of_nat (length xs).

(** [a > b] on numbers. *)
Definition gt (a b : Q) : bool := negb (Qle_bool a b).

(** [a < b] on numbers. *)
Definition lt (a b : Q) : bool := negb (Qle_bool b a).

Lemma gt_spec (a b : Q) : gt a b = true <-> (b < a)%Q.
Proof.
  unfold gt. rewrite negb_true_iff, <- not_true_iff_false, Qle_bool_iff.
  split; [apply Qnot_le_lt | apply Qlt_not_le].
Qed.

Lemma len_nonzero {A} (xs : list A) : xs <> [] -> (len xs =? 0)%Z = false.
Proof. intros H. apply Z.eqb_neq. unfold len. destruct xs; [done|simpl; lia]. Qed.

Lemma lt_spec (a b : Q) : lt a b = true <-> (a < b)%Q.
Proof. apply gt_spec. Qed.

End Py.

(** ** The effect monad: state, trace of outside calls, exceptions *)

Module Eff.
Import Py.

Section Monad.
Context {St Ev : Type}.

(** A computation from a state: the calls made, the state reached, and the
    value returned or the exception raised. *)
Definition M (A : Type) : Type := St -> list Ev * St * (Exn + A).

Definition ret {A} (a : A) : M A := fun s => ([], s, inr a).

Definition bind {A B} (m : M A) (k : A -> M B) : M B :=
  fun s =>
    match m s with
    | (t, s', inl e) => (t, s', inl e)
    | (t, s', inr a) =>
        match k a s' with
        | (t', s'', r) => (t ++ t', s'', r)
        end
    end.

Definition emit (e : Ev) : M unit := fun s => ([e], s, inr tt).
Definition raise {A} (e : Exn) : M A := fun s => ([], s, inl e).
Definition get : M St := fun s => ([], s, inr s).
Definition modify (f : St -> St) : M unit := fun s => ([], f s, inr tt).

(** [try: m except Exception as e: h e]. *)
Definition try_except {A} (m : M A) (h : Exn -> M A) : M A :=
  fun s =>
    match m s with
    | (t, s', inl e) =>
        match h e s' with
        | (t', s'', r) => (t ++ t', s'', r)
        end
    | r => r
    end.

(** An outside call that raises when the outside world says so. *)
Definition call (e : Ev) (fails : option Exn) : M unit :=
  fun s => ([e], s, match fails with Some x => inl x | None => inr tt end).

Definition trace {A} (r : list Ev * St * (Exn + A)) : list Ev := r.1.1.
Definition state {A} (r : list Ev * St * (Exn + A)) : St := r.1.2.
Definition outcome {A} (r : list Ev * St * (Exn + A)) : Exn + A := r.2.

(** The result of running [k] after a prefix that made the calls [t]. *)
Definition after {A} (t : list Ev) (r : list Ev * St * (Exn + A))
    : list Ev * St * (Exn + A) :=
  (t ++ trace r, state r, outcome r).

Lemma bind_ok {A B} (m : M A) (k : A -> M B) s t s' a :
  m s = (t, s', inr a) -> bind m k s = after t (k a s').
Proof.
  intros H. unfold bind, after. rewrite H.
  by destruct (k a s') as [[t' s''] r].
Qed.

Lemma bind_raise {A B} (m : M A) (k : A -> M B) s t s' e :
  m s = (t, s', inl e) -> bind m k s = (t, s', inl e).
Proof. intros H. unfold bind. by rewrite H. Qed.

Lemma state_bind {A B} (m : M A) (k : A -> M B) s :
  state (bind m k s)
  = match outcome (m s) with
    | inl _ => state (m s)
    | inr a => state (k a (state (m s)))
    end.
Proof.
  unfold bind, state, outcome.
  destruct (m s) as [[t s'] [e|a]]; simpl; [done|].
  by destruct (k a s') as [[t' s''] r].
Qed.

Lemma after_nil {A} (r : list Ev * St * (Exn + A)) : after [] r = r.
Proof. by destruct r as [[t s] o]. Qed.

Lemma after_after {A} t1 t2 (r : list Ev * St * (Exn + A)) :
  after t1 (after t2 r) = after (t1 ++ t2) r.
Proof. unfold after, trace, state, outcome. simpl. by rewrite app_assoc. Qed.

End Monad.

Arguments M : clear implicits.

Declare Scope eff_scope.
Delimit Scope eff_scope with eff.
Notation "x <- m ; k" := (bind m (fun x => k))
  (at level 20, m at level 100, k at level 200, only parsing) : eff_scope.
Notation "m ;; k" := (bind m (fun _ => k))
  (at level 100, k at level 200, only parsing, right associativity) : eff_scope.

End Eff.

(** ** shadow_bot_creator.py *)

Module ShadowBot.
Import Py Eff.
Local Open Scope eff_scope.

(** The handle [docker_client.containers.run] returns, with what it was
    started with. *)
Record Container := {
  c_image : string;
  c_name : string;
  c_mem_limit : string;
  c_cpu_quota : Z;
}.

Record ShadowBotManager := {
  max_bots : Z;
  image_name : string;
  cpu_limit : Q;
  mem_limit : string;
  bots : gmap string Container;
}.

Definition set_bots (f : gmap string Container -> gmap string Container)
    (m : ShadowBotManager) : ShadowBotManager :=
  {| max_bots := max_bots m; image_name := image_name m;
     cpu_limit := cpu_limit m; mem_limit := mem_limit m;
     bots := f (bots m) |}.

(** Calls to the outside world. *)
Inductive Event :=
| Stdout (line : string)
| DockerRun (c : Container)
| DockerRemove (name : string)
| GaugeSet (gauge : string) (value : Q).

(** [ShadowBotManager.__init__]. *)
Definition init (max_bots : Z) (image_name : string) (cpu_limit : Q)
    (mem_limit : string) : ShadowBotManager :=
  {| max_bots := max_bots; image_name := image_name; cpu_limit := cpu_limit;
     mem_limit := mem_limit; bots := ∅ |}.

(** [len(self.bots)]. *)
Definition len_bots (m : ShadowBotManager) : Z := Z.of_nat (size (bots m)).

Definition capacity_message : string :=
  "Maksymalna liczba botów osiągnięta. Nie można uruchomić kolejnego.".

(** [create_shadow_bot(bot_name)].  [rnd] is what [random.randint(1000, 9999)]
    returns, [run_fails] whether [containers.run] raises.  The result [None]
    with [capacity_message] on stdout is the refusal at capacity. *)
Definition create_shadow_bot (bot_name : option string) (rnd : Z)
    (run_fails : option Exn) : M ShadowBotManager Event (option Container) :=
  self <- get ;
  if Z.geb (len_bots self) (max_bots self) then
    emit (Stdout capacity_message) ;;
    ret None
  else
    let bot_name :=
      match bot_name with
      | Some s => if truthy (Some s) then s else "shadow_bot_" +:+ str rnd
      | None => "shadow_bot_" +:+ str rnd
      end in
    let container :=
      {| c_image := image_name self; c_name := bot_name;
         c_mem_limit := mem_limit self;
         c_cpu_quota := int (cpu_limit self * 100000) |} in
    call (DockerRun container) run_fails ;;
    modify (set_bots (insert bot_name container)) ;;
    self <- get ;
    emit (GaugeSet "shadow_bot_count" (inject_Z (len_bots self))) ;;
    emit (Stdout ("Uruchomiono Shadow Bota: " +:+ bot_name)) ;;
    ret (Some container).

(** [stop_shadow_bot(bot_name)]; [remove_fails] says whether
    [container.remove(force=True)] raises. *)
Definition stop_shadow_bot (bot_name : string) (remove_fails : option Exn)
    : M ShadowBotManager Event unit :=
  self <- get ;
  match bots self !! bot_name with
  | Some _ =>
      call (DockerRemove bot_name) remove_fails ;;
      modify (set_bots (delete bot_name)) ;;
      self <- get ;
      emit (GaugeSet "shadow_bot_count" (inject_Z (len_bots self))) ;;
      emit (Stdout ("Zatrzymano i usunięto bota: " +:+ bot_name))
  | None =>
      emit (Stdout ("Bot " +:+ bot_name +:+ " nie istnieje."))
  end.

(** [list_running_bots()]: the registered names. *)
Definition list_running_bots (m : ShadowBotManager) : list string :=
  (map_to_list (bots m)).*1.

(** [random.choice(seq)]: [k] is the index the generator draws. *)
Definition random_choice {St A} (k : nat) (seq : list A) : M St Event A :=
  match seq !! (k mod length seq)%nat with
  | Some x => ret x
  | None => raise IndexError
  end.

(** [auto_scale_bots()].  [system_cpu] and [system_mem] are what psutil
    reads; [rnd], [k] and [docker_fails] are the answers of [random] and of
    the Docker runtime to the calls made.  Python reads
    [a or b and c] as [a or (b and c)]. *)
Definition auto_scale_bots (system_cpu system_mem : Q) (rnd : Z) (k : nat)
    (docker_fails : option Exn) : M ShadowBotManager Event unit :=
  emit (GaugeSet "system_cpu_usage" system_cpu) ;;
  emit (GaugeSet "system_mem_usage" system_mem) ;;
  self <- get ;
  (if gt system_cpu 80
      || (gt system_mem 80 && Z.ltb (len_bots self) (max_bots self)) then
     emit (Stdout "Wysokie obciążenie systemu - dodanie nowego Shadow Bota.") ;;
     _ <- create_shadow_bot None rnd docker_fails ;
     ret tt
   else if lt system_cpu 30 && lt system_mem 30 && Z.gtb (len_bots self) 1 then
     bot_to_remove <- random_choice k (list_running_bots self) ;
     emit (Stdout ("Niskie obciążenie systemu - usunięcie Shadow Bota: "
                   +:+ bot_to_remove +:+ ".")) ;;
     stop_shadow_bot bot_to_remove docker_fails
   else ret tt) ;;
  self <- get ;
  emit (Stdout ("Dostosowano liczbę botów. Aktualna liczba: "
                +:+ str (len_bots self))).

(** A client's call on the registry, with the outside world's answers. *)
Inductive Call :=
| Create (bot_name : option string) (rnd : Z) (run_fails : option Exn)
| Stop (bot_name : string) (remove_fails : option Exn).

(** The manager after one call; a call that raises leaves the manager as it
    was when the exception left the method. *)
Definition do_call (c : Call) (m : ShadowBotManager) : ShadowBotManager :=
  match c with
  | Create bot_name rnd run_fails =>
      state (create_shadow_bot bot_name rnd run_fails m)
  | Stop bot_name remove_fails =>
      state (stop_shadow_bot bot_name remove_fails m)
  end.

Definition run_calls (cs : list Call) (m : ShadowBotManager)
    : ShadowBotManager :=
  foldl (fun m c => do_call c m) m cs.

(** The registry holds at most [max_bots] entries. *)
Definition within_capacity (m : ShadowBotManager) : Prop :=
  (len_bots m <= max_bots m)%Z.

(** Calls on a registry of capacity two: the third create is refused, a
    stop frees a place, a create whose Docker run fails adds nothing, and a
    last create fills the registry again. *)
Definition busy_calls : list Call :=
  [Create (Some "bot1") 0 None; Create None 4242 None;
   Create (Some "bot3") 0 None; Stop "bot1" None;
   Create (Some "") 7 (Some (DockerException "no such image"));
   Create (Some "bot4") 0 None].

(** A registry at its capacity of two. *)
Definition full_registry : ShadowBotManager :=
  run_calls [Create (Some "bot1") 0 None; Create (Some "bot2") 0 None]
    (init 2 "shadow_bot_image" 0.5 "256m").

(** *** The pieces of the methods *)

(** Line 35: [bot_name or f"shadow_bot_{random.randint(1000, 9999)}"]. *)
Definition chosen_name (bot_name : option string) (rnd : Z) : string :=
  match bot_name with
  | Some s => if truthy (Some s) then s else "shadow_bot_" +:+ str rnd
  | None => "shadow_bot_" +:+ str rnd
  end.

(** Lines 36-43: the container [containers.run] is asked for. *)
Definition new_container (m : ShadowBotManager) (name : string) : Container :=
  {| c_image := image_name m; c_name := name; c_mem_limit := mem_limit m;
     c_cpu_quota := int (cpu_limit m * 100000) |}.

(** [self.bot_count_gauge.set(n)]. *)
Definition count_gauge (n : Z) : Event :=
  GaugeSet "shadow_bot_count" (inject_Z n).

(** Lines 67-68: the two host gauges, set to the values just read. *)
Definition load_gauges (system_cpu system_mem : Q) : list Event :=
  [GaugeSet "system_cpu_usage" system_cpu;
   GaugeSet "system_mem_usage" system_mem].

Definition started_message (name : string) : string :=
  "Uruchomiono Shadow Bota: " +:+ name.
Definition stopped_message (name : string) : string :=
  "Zatrzymano i usunięto bota: " +:+ name.
Definition unknown_message (name : string) : string :=
  "Bot " +:+ name +:+ " nie istnieje.".
Definition high_load_message : string :=
  "Wysokie obciążenie systemu - dodanie nowego Shadow Bota.".
Definition low_load_message (name : string) : string :=
  "Niskie obciążenie systemu - usunięcie Shadow Bota: " +:+ name +:+ ".".
Definition adjusted_message (n : Z) : string :=
  "Dostosowano liczbę botów. Aktualna liczba: " +:+ str n.

(** A call on the manager, [auto_scale_bots] included, with the outside
    world's answers. *)
Inductive Op :=
| Client (c : Call)
| AutoScale (system_cpu system_mem : Q) (rnd : Z) (k : nat)
    (docker_fails : option Exn).

Definition do_op (o : Op) (m : ShadowBotManager) : ShadowBotManager :=
  match o with
  | Client c => do_call c m
  | AutoScale system_cpu system_mem rnd k docker_fails =>
      state (auto_scale_bots system_cpu system_mem rnd k docker_fails m)
  end.

Definition run_ops (os : list Op) (m : ShadowBotManager) : ShadowBotManager :=
  foldl (fun m o => do_op o m) m os.

(** The script under [if __name__ == "__main__"]: a manager with the default
    parameters, one bot, then one round of auto-scaling. *)
Definition main (rnd1 : Z) (run_fails : option Exn) (system_cpu system_mem : Q)
    (rnd2 : Z) (k : nat) (docker_fails : option Exn)
    : list Event * ShadowBotManager * (Exn + unit) :=
  (_ <- create_shadow_bot None rnd1 run_fails ;
   auto_scale_bots system_cpu system_mem rnd2 k docker_fails)
    (init 5 "shadow_bot_image" 0.5 "256m").

(** A registry of capacity five that holds three bots. *)
Definition three_bots : ShadowBotManager :=
  run_calls [Create (Some "bot1") 0 None; Create (Some "bot2") 0 None;
             Create (Some "bot3") 0 None]
    (init 5 "shadow_bot_image" 0.5 "256m").

Ltac not_in_trace H :=
  repeat (apply elem_of_cons in H as [H|H]; [discriminate H|]);
  by apply elem_of_nil in H.

(** *** The capacity of the registry *)

Lemma create_at_capacity (m : ShadowBotManager) bot_name rnd run_fails :
  (max_bots m <= len_bots m)%Z ->
  create_shadow_bot bot_name rnd run_fails m
  = ([Stdout capacity_message], m, inr None).
Proof.
  intros Hfull. unfold create_shadow_bot, bind, get.
  destruct (Z.geb_spec (len_bots m) (max_bots m)) as [_|Hlt]; [reflexivity|lia].
Qed.

Lemma create_state (m : ShadowBotManager) bot_name rnd run_fails :
  state (create_shadow_bot bot_name rnd run_fails m) = m
  \/ ((len_bots m < max_bots m)%Z
      /\ exists name c,
           state (create_shadow_bot bot_name rnd run_fails m)
           = set_bots (insert name c) m).
Proof.
  unfold create_shadow_bot, bind, get.
  destruct (Z.geb_spec (len_bots m) (max_bots m)) as [Hge|Hlt]; [by left|].
  destruct run_fails as [e|]; [by left|].
  right. split; [lia|]. simpl. eauto.
Qed.

Lemma stop_state (m : ShadowBotManager) bot_name remove_fails :
  state (stop_shadow_bot bot_name remove_fails m) = m
  \/ state (stop_shadow_bot bot_name remove_fails m)
     = set_bots (delete bot_name) m.
Proof.
  unfold stop_shadow_bot, bind, get.
  destruct (bots m !! bot_name) as [c|]; [|by left].
  destruct remove_fails as [e|]; [by left|by right].
Qed.

Lemma do_call_max_bots (c : Call) (m : ShadowBotManager) :
  max_bots (do_call c m) = max_bots m.
Proof.
  destruct c as [bn rnd rf|bn rf]; simpl.
  - destruct (create_state m bn rnd rf) as [->|(_ & name & c & ->)]; done.
  - destruct (stop_state m bn rf) as [->| ->]; done.
Qed.

Lemma do_call_within_capacity (c : Call) (m : ShadowBotManager) :
  within_capacity m -> within_capacity (do_call c m).
Proof.
  unfold within_capacity, len_bots. intros Hm.
  destruct c as [bn rnd rf|bn rf]; simpl.
  - destruct (create_state m bn rnd rf) as [->|(Hlt & name & c & ->)]; [done|].
    unfold len_bots in Hlt. simpl. rewrite map_size_insert.
    destruct (bots m !! name); simpl; lia.
  - destruct (stop_state m bn rf) as [->| ->]; [done|].
    simpl. rewrite map_size_delete.
    destruct (bots m !! bn); simpl; lia.
Qed.

Lemma run_calls_invariant (cs : list Call) (m : ShadowBotManager) :
  within_capacity m ->
  within_capacity (run_calls cs m) /\ max_bots (run_calls cs m) = max_bots m.
Proof.
  revert m. induction cs as [|c cs IH]; intros m Hm; [done|].
  simpl. destruct (IH (do_call c m)) as [H1 H2].
  - by apply do_call_within_capacity.
  - split; [done|]. by rewrite H2, do_call_max_bots.
Qed.

(** C1.  Starting from the empty registry of [__init__] with a capacity
    [max_bots >= 0], after any sequence of [create_shadow_bot] and
    [stop_shadow_bot] calls (whatever the Docker runtime answers) the
    registry holds at most [max_bots] entries; and a create attempted when
    it holds [max_bots] entries returns [None] after printing the capacity
    message, calls no runtime operation and leaves the manager unchanged. *)
Theorem registry_capacity (n : Z) (image : string) (cpu : Q) (mem : string)
    (calls : list Call) :
  (0 <= n)%Z ->
  let m := run_calls calls (init n image cpu mem) in
  (len_bots m <= n)%Z
  /\ forall bot_name rnd run_fails,
       len_bots m = n ->
       create_shadow_bot bot_name rnd run_fails m
       = ([Stdout capacity_message], m, inr None).
Proof.
  intros Hn m.
  destruct (run_calls_invariant calls (init n image cpu mem)) as [Hcap Hmax].
  { unfold within_capacity, len_bots. simpl. rewrite map_size_empty. lia. }
  fold m in Hcap, Hmax. simpl in Hmax. unfold within_capacity in Hcap.
  split; [lia|].
  intros bn rnd rf Hfull. apply create_at_capacity. lia.
Qed.

(** The theorem at [busy_calls]. *)
Lemma registry_capacity_witness :
  (0 <= 2)%Z
  /\ list_running_bots
       (run_calls busy_calls (init 2 "shadow_bot_image" 0.5 "256m"))
     ≡ₚ ["shadow_bot_4242"; "bot4"]
  /\ (len_bots (run_calls busy_calls (init 2 "shadow_bot_image" 0.5 "256m"))
      <= 2)%Z
  /\ forall bot_name rnd run_fails,
       len_bots (run_calls busy_calls (init 2 "shadow_bot_image" 0.5 "256m"))
       = 2%Z ->
       create_shadow_bot bot_name rnd run_fails
         (run_calls busy_calls (init 2 "shadow_bot_image" 0.5 "256m"))
       = ([Stdout capacity_message],
          run_calls busy_calls (init 2 "shadow_bot_image" 0.5 "256m"),
          inr None).
Proof.
  split; [lia|]. split; [by vm_compute|].
  apply (registry_capacity 2 "shadow_bot_image" 0.5 "256m" busy_calls). lia.
Defined.

(** *** The fleet auto-scaler and the capacity *)

(** With the host CPU at 90% and the registry at capacity, the branch that
    adds a bot is taken: [create_shadow_bot] is called and refuses. *)
Example auto_scale_cpu_spike_at_capacity :
  len_bots full_registry = max_bots full_registry
  /\ auto_scale_bots 90 10 1234 0 None full_registry
     = ([GaugeSet "system_cpu_usage" 90; GaugeSet "system_mem_usage" 10;
         Stdout "Wysokie obciążenie systemu - dodanie nowego Shadow Bota.";
         Stdout capacity_message;
         Stdout "Dostosowano liczbę botów. Aktualna liczba: 2"],
        full_registry, inr tt).
Proof. split; by vm_compute. Qed.

Lemma auto_scale_creates_below_capacity cpu mem rnd k docker_fails m c :
  DockerRun c ∈ trace (auto_scale_bots cpu mem rnd k docker_fails m) ->
  (len_bots m < max_bots m)%Z.
Proof.
  unfold auto_scale_bots, bind, emit, get, trace. simpl.
  destruct (gt cpu 80 || gt mem 80 && (len_bots m <? max_bots m)%Z).
  - unfold create_shadow_bot, bind, get.
    destruct (Z.geb_spec (len_bots m) (max_bots m)) as [Hge|Hlt]; [|lia].
    simpl. intros H. not_in_trace H.
  - destruct (lt cpu 30 && lt mem 30 && (len_bots m >? 1)%Z).
    + unfold random_choice.
      destruct (list_running_bots m !! _) as [name|]; simpl;
        [|intros H; not_in_trace H].
      unfold stop_shadow_bot, bind, get.
      destruct (bots m !! name); simpl; [|intros H; not_in_trace H].
      destruct docker_fails; simpl; intros H; not_in_trace H.
    + simpl. intros H. not_in_trace H.
Qed.

Lemma auto_scale_at_capacity cpu mem rnd k docker_fails m :
  (max_bots m <= len_bots m)%Z ->
  lt cpu 30 && lt mem 30 = false ->
  state (auto_scale_bots cpu mem rnd k docker_fails m) = m
  /\ outcome (auto_scale_bots cpu mem rnd k docker_fails m) = inr tt.
Proof.
  intros Hfull Hload.
  unfold auto_scale_bots, bind, emit, get, state, outcome. simpl.
  rewrite Hload. simpl.
  destruct (gt cpu 80 || gt mem 80 && (len_bots m <? max_bots m)%Z); [|done].
  by rewrite create_at_capacity.
Qed.

(** *** Creating, stopping and listing bots *)

Lemma create_below_capacity m bot_name rnd run_fails :
  (len_bots m < max_bots m)%Z ->
  let name := chosen_name bot_name rnd in
  let c := new_container m name in
  create_shadow_bot bot_name rnd run_fails m
  = match run_fails with
    | Some e => ([DockerRun c], m, inl e)
    | None =>
        ([DockerRun c;
          count_gauge (len_bots (set_bots (insert name c) m));
          Stdout (started_message name)],
         set_bots (insert name c) m, inr (Some c))
    end.
Proof.
  intros Hlt name c. unfold create_shadow_bot, bind, get.
  destruct (Z.geb_spec (len_bots m) (max_bots m)) as [Hge|_]; [lia|].
  destruct run_fails; reflexivity.
Qed.

Lemma stop_eq m bot_name remove_fails :
  stop_shadow_bot bot_name remove_fails m
  = match bots m !! bot_name with
    | None => ([Stdout (unknown_message bot_name)], m, inr tt)
    | Some _ =>
        match remove_fails with
        | Some e => ([DockerRemove bot_name], m, inl e)
        | None =>
            ([DockerRemove bot_name;
              count_gauge (len_bots (set_bots (delete bot_name) m));
              Stdout (stopped_message bot_name)],
             set_bots (delete bot_name) m, inr tt)
        end
    end.
Proof.
  unfold stop_shadow_bot, bind, get.
  destruct (bots m !! bot_name); [|reflexivity].
  destruct remove_fails; reflexivity.
Qed.

Lemma create_state_below_capacity m bot_name rnd :
  (len_bots m < max_bots m)%Z ->
  state (create_shadow_bot bot_name rnd None m)
  = set_bots (insert (chosen_name bot_name rnd)
                (new_container m (chosen_name bot_name rnd))) m.
Proof. intros Hlt. by rewrite create_below_capacity. Qed.

Lemma set_bots_id (m : ShadowBotManager) (f : gmap string Container -> _) :
  f (bots m) = bots m -> set_bots f m = m.
Proof. intros H. destruct m. unfold set_bots. simpl in *. by rewrite H. Qed.

Lemma chosen_name_given (s : string) (rnd : Z) :
  s <> "" -> chosen_name (Some s) rnd = s.
Proof.
  intros Hs. unfold chosen_name, truthy.
  by apply String.eqb_neq in Hs as ->.
Qed.

Lemma elem_of_list_running_bots (m : ShadowBotManager) (name : string) :
  name ∈ list_running_bots m <-> is_Some (bots m !! name).
Proof.
  unfold list_running_bots. rewrite list_elem_of_fmap. split.
  - intros ([n c] & -> & Hin). apply elem_of_map_to_list in Hin. by exists c.
  - intros [c Hc]. exists (name, c). split; [done|].
    by apply elem_of_map_to_list.
Qed.

Lemma length_list_running_bots (m : ShadowBotManager) :
  Z.of_nat (length (list_running_bots m)) = len_bots m.
Proof.
  unfold list_running_bots, len_bots.
  by rewrite length_fmap, length_map_to_list.
Qed.

Lemma len_bots_insert (m : ShadowBotManager) name c :
  len_bots (set_bots (insert name c) m)
  = match bots m !! name with
    | Some _ => len_bots m
    | None => (len_bots m + 1)%Z
    end.
Proof.
  unfold len_bots. simpl. rewrite map_size_insert.
  destruct (bots m !! name); simpl; lia.
Qed.

Lemma len_bots_delete (m : ShadowBotManager) name :
  is_Some (bots m !! name) ->
  len_bots (set_bots (delete name) m) = (len_bots m - 1)%Z.
Proof.
  intros [c Hc]. unfold len_bots. simpl.
  rewrite map_size_delete, Hc.
  assert (size (bots m) <> 0%nat); [|simpl; lia].
  intros Hz. apply map_size_empty_inv in Hz. by rewrite Hz in Hc.
Qed.

(** X1.  Below capacity, when the Docker runtime starts the container,
    [create_shadow_bot] returns the container it started, registers it under
    the name used (the given name, or [shadow_bot_<rnd>] when the name is
    [None] or empty), leaves the other entries alone, sets the count gauge to
    the new count and prints the start message.  The count grows by one
    unless the name was already registered: then the entry is replaced. *)
Theorem create_registers_the_bot (m : ShadowBotManager)
    (bot_name : option string) (rnd : Z) :
  (len_bots m < max_bots m)%Z ->
  let name := chosen_name bot_name rnd in
  let c := new_container m name in
  let r := create_shadow_bot bot_name rnd None m in
  outcome r = inr (Some c)
  /\ bots (state r) !! name = Some c
  /\ (forall other, other <> name -> bots (state r) !! other = bots m !! other)
  /\ name ∈ list_running_bots (state r)
  /\ len_bots (state r)
     = match bots m !! name with
       | Some _ => len_bots m
       | None => (len_bots m + 1)%Z
       end
  /\ trace r
     = [DockerRun c; count_gauge (len_bots (state r));
        Stdout (started_message name)]
  /\ (forall s, bot_name = Some s -> s <> "" -> name = s)
  /\ (bot_name = None \/ bot_name = Some "" ->
      name = "shadow_bot_" +:+ str rnd).
Proof.
  intros Hlt name c r. unfold r. rewrite create_below_capacity by done.
  fold name. fold c. unfold outcome, state, trace. simpl.
  split; [done|]. split; [apply lookup_insert_eq|].
  split; [intros other Hne; by apply lookup_insert_ne|].
  split.
  { apply elem_of_list_running_bots. simpl. rewrite lookup_insert_eq. eauto. }
  split; [apply len_bots_insert|]. split; [done|]. split.
  - intros s -> Hs. by apply chosen_name_given.
  - intros [->| ->]; reflexivity.
Qed.

(** The theorem at a fourth bot on [three_bots]. *)
Lemma create_registers_the_bot_witness :
  outcome (create_shadow_bot (Some "bot4") 0 None three_bots)
  = inr (Some (new_container three_bots "bot4"))
  /\ "bot4" ∈ list_running_bots
                (state (create_shadow_bot (Some "bot4") 0 None three_bots))
  /\ len_bots (state (create_shadow_bot (Some "bot4") 0 None three_bots)) = 4%Z.
Proof.
  destruct (create_registers_the_bot three_bots (Some "bot4") 0)
    as (H1 & _ & _ & H2 & H3 & _); [by vm_compute|].
  split; [exact H1|]. split; [exact H2|]. by rewrite H3.
Defined.

(** X2.  Below capacity, when [containers.run] raises, the exception leaves
    [create_shadow_bot]: nothing is registered, the count gauge is not set
    and nothing is printed. *)
Theorem create_failure_registers_nothing (m : ShadowBotManager)
    (bot_name : option string) (rnd : Z) (e : Exn) :
  (len_bots m < max_bots m)%Z ->
  create_shadow_bot bot_name rnd (Some e) m
  = ([DockerRun (new_container m (chosen_name bot_name rnd))], m, inl e).
Proof. intros Hlt. by rewrite create_below_capacity. Qed.

Lemma create_failure_registers_nothing_witness :
  create_shadow_bot None 1234 (Some (DockerException "no such image"))
    three_bots
  = ([DockerRun (new_container three_bots "shadow_bot_1234")], three_bots,
     inl (DockerException "no such image")).
Proof.
  apply (create_failure_registers_nothing three_bots None 1234).
  by vm_compute.
Defined.

(** X3.  [stop_shadow_bot] on a name that is not registered is not an error:
    it prints that the bot does not exist, makes no call to the runtime
    (whatever the runtime would answer) and leaves the registry and the
    gauge alone. *)
Theorem stop_unknown_bot (m : ShadowBotManager) (bot_name : string)
    (remove_fails : option Exn) :
  bots m !! bot_name = None ->
  stop_shadow_bot bot_name remove_fails m
  = ([Stdout (unknown_message bot_name)], m, inr tt).
Proof. intros Hnone. by rewrite stop_eq, Hnone. Qed.

Lemma stop_unknown_bot_witness :
  stop_shadow_bot "bot9" (Some (DockerException "gone")) three_bots
  = ([Stdout "Bot bot9 nie istnieje."], three_bots, inr tt).
Proof. apply (stop_unknown_bot three_bots "bot9"). by vm_compute. Defined.

(** X4.  [stop_shadow_bot] on a registered name, when the runtime removes the
    container: the name is no longer registered nor listed, the other
    entries are untouched, the count drops by exactly one, and the gauge is
    set to the new count. *)
Theorem stop_removes_the_bot (m : ShadowBotManager) (bot_name : string)
    (c : Container) :
  bots m !! bot_name = Some c ->
  let r := stop_shadow_bot bot_name None m in
  outcome r = inr tt
  /\ bots (state r) !! bot_name = None
  /\ (forall other,
        other <> bot_name -> bots (state r) !! other = bots m !! other)
  /\ (bot_name ∉ list_running_bots (state r))
  /\ len_bots (state r) = (len_bots m - 1)%Z
  /\ trace r
     = [DockerRemove bot_name; count_gauge (len_bots m - 1);
        Stdout (stopped_message bot_name)].
Proof.
  intros Hc r. unfold r. rewrite stop_eq, Hc.
  unfold outcome, state, trace. simpl.
  split; [done|]. split; [apply lookup_delete_eq|].
  split; [intros other Hne; by apply lookup_delete_ne|].
  split.
  { rewrite elem_of_list_running_bots. simpl. rewrite lookup_delete_eq.
    by intros [x Hx]. }
  rewrite len_bots_delete by eauto. done.
Qed.

Lemma stop_removes_the_bot_witness :
  ("bot2" ∉ list_running_bots (state (stop_shadow_bot "bot2" None three_bots)))
  /\ len_bots (state (stop_shadow_bot "bot2" None three_bots)) = 2%Z.
Proof.
  destruct (stop_removes_the_bot three_bots "bot2"
              (new_container three_bots "bot2")) as (_ & _ & _ & H1 & H2 & _);
    [by vm_compute|].
  split; [exact H1|]. by rewrite H2.
Defined.

(** X5.  When [container.remove(force=True)] raises, the exception leaves
    [stop_shadow_bot] before the [del]: the bot stays registered and the
    gauge is not updated. *)
Theorem stop_failure_keeps_the_bot (m : ShadowBotManager) (bot_name : string)
    (c : Container) (e : Exn) :
  bots m !! bot_name = Some c ->
  stop_shadow_bot bot_name (Some e) m = ([DockerRemove bot_name], m, inl e).
Proof. intros Hc. by rewrite stop_eq, Hc. Qed.

Lemma stop_failure_keeps_the_bot_witness :
  stop_shadow_bot "bot2" (Some (DockerException "timeout")) three_bots
  = ([DockerRemove "bot2"], three_bots, inl (DockerException "timeout")).
Proof.
  apply (stop_failure_keeps_the_bot three_bots "bot2"
           (new_container three_bots "bot2")).
  by vm_compute.
Defined.

(** X6.  Creating a bot under a fresh, non-empty name and stopping it again
    gives back the manager as it was. *)
Theorem create_then_stop_restores (m : ShadowBotManager) (name : string)
    (rnd : Z) :
  (len_bots m < max_bots m)%Z ->
  name <> "" ->
  bots m !! name = None ->
  let created := state (create_shadow_bot (Some name) rnd None m) in
  state (stop_shadow_bot name None created) = m
  /\ outcome (stop_shadow_bot name None created) = inr tt.
Proof.
  intros Hlt Hname Hfresh created. unfold created.
  rewrite create_state_below_capacity by done.
  rewrite chosen_name_given by done. rewrite stop_eq. simpl.
  rewrite lookup_insert_eq. unfold state, outcome. simpl.
  split; [|done].
  transitivity
    (set_bots (fun b => delete name (<[name := new_container m name]> b)) m);
    [reflexivity|].
  apply set_bots_id. by apply delete_insert_id.
Qed.

Lemma create_then_stop_restores_witness :
  state (stop_shadow_bot "bot4" None
           (state (create_shadow_bot (Some "bot4") 0 None three_bots)))
  = three_bots.
Proof.
  destruct (create_then_stop_restores three_bots "bot4" 0) as [H _];
    [by vm_compute|done|by vm_compute|].
  exact H.
Defined.

(** X7.  A name that has been removed can be used again: on a registry within
    its capacity, stopping a registered bot and creating one under the same
    name succeeds, and the registry then holds the new container under that
    name, with the same count as before. *)
Theorem removed_name_can_be_reused (m : ShadowBotManager) (name : string)
    (c : Container) (rnd : Z) :
  within_capacity m ->
  name <> "" ->
  bots m !! name = Some c ->
  let stopped := state (stop_shadow_bot name None m) in
  let r := create_shadow_bot (Some name) rnd None stopped in
  outcome r = inr (Some (new_container m name))
  /\ bots (state r) = <[name := new_container m name]> (bots m)
  /\ len_bots (state r) = len_bots m.
Proof.
  intros Hcap Hname Hc stopped r.
  assert (stopped = set_bots (delete name) m) as Hs
    by (unfold stopped; by rewrite stop_eq, Hc).
  assert (len_bots stopped = (len_bots m - 1)%Z) as Hlen
    by (rewrite Hs; apply len_bots_delete; eauto).
  unfold r. rewrite create_below_capacity
    by (rewrite Hlen, Hs; unfold within_capacity in Hcap; simpl; lia).
  rewrite chosen_name_given by done.
  unfold outcome, state. simpl. split; [by rewrite Hs|].
  assert (bots (set_bots (insert name (new_container stopped name)) stopped)
          = <[name := new_container m name]> (bots m)) as Hb.
  { rewrite Hs. simpl. apply insert_delete_eq. }
  split; [done|].
  unfold len_bots. rewrite Hb, map_size_insert, Hc. done.
Qed.

Lemma removed_name_can_be_reused_witness :
  len_bots
    (state (create_shadow_bot (Some "bot2") 0 None
              (state (stop_shadow_bot "bot2" None full_registry))))
  = len_bots full_registry.
Proof.
  destruct (removed_name_can_be_reused full_registry "bot2"
              (new_container full_registry "bot2") 0) as (_ & _ & H);
    [by vm_compute|done|by vm_compute|].
  exact H.
Defined.

(** X8.  [list_running_bots] returns each registered name once and nothing
    else: a name is listed exactly when it is registered, and the list is as
    long as [len(self.bots)].  (The order of the list is not modelled.) *)
Theorem list_running_bots_lists_the_registry (m : ShadowBotManager) :
  NoDup (list_running_bots m)
  /\ Z.of_nat (length (list_running_bots m)) = len_bots m
  /\ forall name, name ∈ list_running_bots m <-> is_Some (bots m !! name).
Proof.
  split; [apply NoDup_fst_map_to_list|].
  split; [apply length_list_running_bots|].
  apply elem_of_list_running_bots.
Qed.

(** *** The fleet auto-scaler *)

Lemma auto_scale_eq cpu mem rnd k docker_fails m :
  auto_scale_bots cpu mem rnd k docker_fails m
  = if gt cpu 80 || (gt mem 80 && (len_bots m <? max_bots m)%Z) then
      match create_shadow_bot None rnd docker_fails m with
      | (t, m', inl e) =>
          (load_gauges cpu mem ++ Stdout high_load_message :: t, m', inl e)
      | (t, m', inr _) =>
          (load_gauges cpu mem ++ Stdout high_load_message :: t
           ++ [Stdout (adjusted_message (len_bots m'))], m', inr tt)
      end
    else if lt cpu 30 && lt mem 30 && (len_bots m >? 1)%Z then
      match list_running_bots m !! (k mod length (list_running_bots m))%nat with
      | None => (load_gauges cpu mem, m, inl IndexError)
      | Some bot =>
          match stop_shadow_bot bot docker_fails m with
          | (t, m', inl e) =>
              (load_gauges cpu mem ++ Stdout (low_load_message bot) :: t, m',
               inl e)
          | (t, m', inr _) =>
              (load_gauges cpu mem ++ Stdout (low_load_message bot) :: t
               ++ [Stdout (adjusted_message (len_bots m'))], m', inr tt)
          end
      end
    else (load_gauges cpu mem ++ [Stdout (adjusted_message (len_bots m))], m,
          inr tt).
Proof.
  unfold auto_scale_bots, bind, emit, get, random_choice, ret, raise. simpl.
  destruct (gt cpu 80 || gt mem 80 && (len_bots m <? max_bots m)%Z).
  - destruct (create_shadow_bot None rnd docker_fails m) as [[t m'] [e|a]];
      simpl; by rewrite ?app_nil_r.
  - destruct (lt cpu 30 && lt mem 30 && (len_bots m >? 1)%Z); [|done].
    destruct (list_running_bots m !! _) as [bot|]; [|done].
    destruct (stop_shadow_bot bot docker_fails m) as [[t m'] [e|[]]];
      simpl; by rewrite ?app_nil_r.
Qed.

Lemma choice_registered (k : nat) (m : ShadowBotManager) :
  (0 < len_bots m)%Z ->
  exists name c,
    list_running_bots m !! (k mod length (list_running_bots m))%nat = Some name
    /\ bots m !! name = Some c.
Proof.
  intros Hpos. rewrite <- length_list_running_bots in Hpos.
  destruct (lookup_lt_is_Some_2 (list_running_bots m)
              (k mod length (list_running_bots m))) as [name Hname].
  { apply Nat.mod_upper_bound. lia. }
  exists name.
  destruct (proj1 (elem_of_list_running_bots m name)) as [c Hc];
    [by eapply list_elem_of_lookup_2|].
  by exists c.
Qed.

Lemma gt_false (a b : Q) : (a <= b)%Q -> gt a b = false.
Proof.
  intros H. apply not_true_iff_false. rewrite gt_spec. lra.
Qed.

Lemma lt_false (a b : Q) : (b <= a)%Q -> lt a b = false.
Proof.
  intros H. apply not_true_iff_false. rewrite lt_spec. lra.
Qed.

Lemma gt_true (a b : Q) : (b < a)%Q -> gt a b = true.
Proof. apply gt_spec. Qed.

Lemma lt_true (a b : Q) : (a < b)%Q -> lt a b = true.
Proof. apply lt_spec. Qed.

(** After [auto_scale_bots] the manager is as before, or holds one more
    entry (only below capacity), or has lost one registered entry (only when
    it held more than one). *)
Lemma auto_scale_state cpu mem rnd k docker_fails m :
  let m' := state (auto_scale_bots cpu mem rnd k docker_fails m) in
  m' = m
  \/ ((len_bots m < max_bots m)%Z
      /\ exists name c, m' = set_bots (insert name c) m)
  \/ ((1 < len_bots m)%Z
      /\ exists name, is_Some (bots m !! name)
                      /\ m' = set_bots (delete name) m).
Proof.
  intros m'. unfold m'. rewrite auto_scale_eq.
  destruct (gt cpu 80 || gt mem 80 && (len_bots m <? max_bots m)%Z).
  - pose proof (create_state m None rnd docker_fails) as Hc.
    destruct (create_shadow_bot None rnd docker_fails m) as [[t m1] [e|a]];
      unfold state in *; simpl in *;
      (destruct Hc as [->|Hc]; [by left|right; by left]).
  - destruct (lt cpu 30 && lt mem 30 && (len_bots m >? 1)%Z) eqn:Hlow;
      [|by left].
    apply andb_true_iff in Hlow as [_ Hlen]. apply Z.gtb_lt in Hlen.
    destruct (choice_registered k m) as (name & c & -> & Hc); [lia|].
    rewrite stop_eq, Hc.
    destruct docker_fails as [e|]; [by left|].
    right; right. split; [done|]. exists name. eauto.
Qed.

(** X9.  With the host CPU or the host memory above 80% and the registry below
    its capacity, when the runtime starts the container, [auto_scale_bots]
    adds one bot named [shadow_bot_<rnd>] and reports the new count. *)
Theorem auto_scale_adds_a_bot_under_high_load (cpu mem : Q) (rnd : Z)
    (k : nat) (m : ShadowBotManager) :
  (80 < cpu)%Q \/ (80 < mem)%Q ->
  (len_bots m < max_bots m)%Z ->
  let name := "shadow_bot_" +:+ str rnd in
  let c := new_container m name in
  let m' := set_bots (insert name c) m in
  auto_scale_bots cpu mem rnd k None m
  = (load_gauges cpu mem
     ++ [Stdout high_load_message; DockerRun c; count_gauge (len_bots m');
         Stdout (started_message name);
         Stdout (adjusted_message (len_bots m'))],
     m', inr tt).
Proof.
  intros Hload Hlt name c m'. rewrite auto_scale_eq.
  assert (gt cpu 80 || gt mem 80 && (len_bots m <? max_bots m)%Z = true)
    as ->.
  { apply orb_true_iff. rewrite andb_true_iff, !gt_spec, Z.ltb_lt. tauto. }
  by rewrite create_below_capacity.
Qed.

Lemma auto_scale_adds_a_bot_under_high_load_witness :
  state (auto_scale_bots 10 90 4242 0 None three_bots)
  = set_bots (insert "shadow_bot_4242"
                (new_container three_bots "shadow_bot_4242")) three_bots.
Proof.
  pose proof (auto_scale_adds_a_bot_under_high_load 10 90 4242 0 three_bots)
    as H.
  simpl in H. rewrite H; [reflexivity|right; by vm_compute|by vm_compute].
Defined.

(** X10.  With the host CPU and the host memory both below 30% and more than
    one bot registered, when the runtime removes the container,
    [auto_scale_bots] stops exactly one bot, which is a registered one, and
    reports the new count: the count drops by one. *)
Theorem auto_scale_removes_a_bot_under_low_load (cpu mem : Q) (rnd : Z)
    (k : nat) (m : ShadowBotManager) :
  (cpu < 30)%Q ->
  (mem < 30)%Q ->
  (1 < len_bots m)%Z ->
  exists name,
    is_Some (bots m !! name)
    /\ auto_scale_bots cpu mem rnd k None m
       = (load_gauges cpu mem
          ++ [Stdout (low_load_message name); DockerRemove name;
              count_gauge (len_bots m - 1); Stdout (stopped_message name);
              Stdout (adjusted_message (len_bots m - 1))],
          set_bots (delete name) m, inr tt).
Proof.
  intros Hcpu Hmem Hlen. rewrite auto_scale_eq.
  rewrite (gt_false cpu 80), (gt_false mem 80) by lra.
  rewrite (lt_true cpu 30), (lt_true mem 30) by done.
  apply Z.gtb_lt in Hlen as Hgt. rewrite Hgt. simpl.
  destruct (choice_registered k m) as (name & c & -> & Hc); [lia|].
  exists name. split; [eauto|].
  rewrite stop_eq, Hc. rewrite len_bots_delete by eauto. reflexivity.
Qed.

Lemma auto_scale_removes_a_bot_under_low_load_witness :
  exists name,
    is_Some (bots three_bots !! name)
    /\ auto_scale_bots 10 20 0 7 None three_bots
       = (load_gauges 10 20
          ++ [Stdout (low_load_message name); DockerRemove name;
              count_gauge (len_bots three_bots - 1);
              Stdout (stopped_message name);
              Stdout (adjusted_message (len_bots three_bots - 1))],
          set_bots (delete name) three_bots, inr tt).
Proof.
  apply (auto_scale_removes_a_bot_under_low_load 10 20 0 7 three_bots);
    by vm_compute.
Defined.

Lemma auto_scale_no_branch cpu mem rnd k docker_fails m :
  gt cpu 80 = false ->
  gt mem 80 && (len_bots m <? max_bots m)%Z = false ->
  lt cpu 30 && lt mem 30 && (len_bots m >? 1)%Z = false ->
  auto_scale_bots cpu mem rnd k docker_fails m
  = (load_gauges cpu mem ++ [Stdout (adjusted_message (len_bots m))], m,
     inr tt).
Proof. intros H1 H2 H3. rewrite auto_scale_eq. by rewrite H1, H2, H3. Qed.

(** X11.  When neither branch applies (the CPU is at most 80%, the memory is
    at most 80% or the registry is at capacity, and the load is not low or at
    most one bot is registered), [auto_scale_bots] sets the two gauges,
    reports the count and does nothing else, whatever the runtime would
    answer. *)
Theorem auto_scale_idle_between_the_thresholds (cpu mem : Q) (rnd : Z)
    (k : nat) (docker_fails : option Exn) (m : ShadowBotManager) :
  (cpu <= 80)%Q ->
  (mem <= 80)%Q \/ (max_bots m <= len_bots m)%Z ->
  (30 <= cpu)%Q \/ (30 <= mem)%Q \/ (len_bots m <= 1)%Z ->
  auto_scale_bots cpu mem rnd k docker_fails m
  = (load_gauges cpu mem ++ [Stdout (adjusted_message (len_bots m))], m,
     inr tt).
Proof.
  intros Hcpu Hmem Hlow. apply auto_scale_no_branch.
  - by apply gt_false.
  - apply andb_false_iff. destruct Hmem as [H|H].
    + left. by apply gt_false.
    + right. apply Z.ltb_ge. lia.
  - rewrite !andb_false_iff. destruct Hlow as [H|[H|H]].
    + left; left. by apply lt_false.
    + left; right. by apply lt_false.
    + right. apply not_true_iff_false. rewrite Z.gtb_lt. lia.
Qed.

Lemma auto_scale_idle_between_the_thresholds_witness :
  auto_scale_bots 50 50 0 0 (Some (DockerException "down")) three_bots
  = (load_gauges 50 50 ++ [Stdout (adjusted_message (len_bots three_bots))],
     three_bots, inr tt).
Proof.
  apply (auto_scale_idle_between_the_thresholds 50 50 0 0 _ three_bots).
  - by vm_compute.
  - left. by vm_compute.
  - left. by vm_compute.
Defined.

(** X12.  At capacity the two halves of the condition
    [system_cpu > 80 or system_mem > 80 and len(self.bots) < self.max_bots]
    behave differently.  A CPU above 80% enters the branch: the high-load
    message is printed and [create_shadow_bot] is called and refuses.  A
    memory above 80% with the CPU at most 80% does not enter it.  In both
    cases no runtime call is made and the manager is unchanged. *)
Theorem auto_scale_at_capacity_cpu_versus_memory (cpu mem : Q) (rnd : Z)
    (k : nat) (docker_fails : option Exn) (m : ShadowBotManager) :
  (max_bots m <= len_bots m)%Z ->
  ((80 < cpu)%Q ->
   auto_scale_bots cpu mem rnd k docker_fails m
   = (load_gauges cpu mem
      ++ [Stdout high_load_message; Stdout capacity_message;
          Stdout (adjusted_message (len_bots m))], m, inr tt))
  /\ ((cpu <= 80)%Q -> (80 < mem)%Q ->
      auto_scale_bots cpu mem rnd k docker_fails m
      = (load_gauges cpu mem ++ [Stdout (adjusted_message (len_bots m))], m,
         inr tt)).
Proof.
  intros Hfull. split.
  - intros Hcpu. rewrite auto_scale_eq.
    rewrite (gt_true cpu 80) by done. simpl.
    by rewrite create_at_capacity.
  - intros Hcpu Hmem. apply auto_scale_no_branch.
    + by apply gt_false.
    + apply andb_false_iff. right. apply Z.ltb_ge. lia.
    + rewrite !andb_false_iff. left; right. apply lt_false. lra.
Qed.

Lemma auto_scale_at_capacity_cpu_versus_memory_witness :
  auto_scale_bots 90 10 0 0 None full_registry
  = (load_gauges 90 10
     ++ [Stdout high_load_message; Stdout capacity_message;
         Stdout (adjusted_message 2)], full_registry, inr tt)
  /\ auto_scale_bots 10 90 0 0 None full_registry
     = (load_gauges 10 90 ++ [Stdout (adjusted_message 2)], full_registry,
        inr tt).
Proof.
  destruct (auto_scale_at_capacity_cpu_versus_memory 90 10 0 0 None
              full_registry) as [H1 _]; [by vm_compute|].
  destruct (auto_scale_at_capacity_cpu_versus_memory 10 90 0 0 None
              full_registry) as [_ H2]; [by vm_compute|].
  split; [apply H1|apply H2]; by vm_compute.
Defined.

(** X13.  [auto_scale_bots] raises only what the Docker runtime raises:
    [random.choice] is never called on an empty list, and the bot chosen for
    removal is always a registered one, so the branch that reports an unknown
    bot is never taken.  When the runtime does not fail, it returns
    normally. *)
Theorem auto_scale_raises_only_runtime_errors (cpu mem : Q) (rnd : Z)
    (k : nat) (docker_fails : option Exn) (m : ShadowBotManager) :
  let r := auto_scale_bots cpu mem rnd k docker_fails m in
  (outcome r = inr tt
   \/ exists e, docker_fails = Some e /\ outcome r = inl e)
  /\ (docker_fails = None -> outcome r = inr tt)
  /\ (forall name, Stdout (unknown_message name) ∉ trace r).
Proof.
  intros r.
  assert ((outcome r = inr tt
           \/ exists e, docker_fails = Some e /\ outcome r = inl e)
          /\ forall name, Stdout (unknown_message name) ∉ trace r) as [H1 H2].
  { unfold r. rewrite auto_scale_eq.
    destruct (gt cpu 80 || gt mem 80 && (len_bots m <? max_bots m)%Z).
    - destruct (Z.lt_ge_cases (len_bots m) (max_bots m)) as [Hlt|Hge].
      + rewrite create_below_capacity by done.
        destruct docker_fails as [e|]; unfold outcome, trace; simpl;
          (split; [eauto|intros name H; not_in_trace H]).
      + rewrite create_at_capacity by done. unfold outcome, trace. simpl.
        split; [eauto|intros name H; not_in_trace H].
    - destruct (lt cpu 30 && lt mem 30 && (len_bots m >? 1)%Z) eqn:Hlow.
      + apply andb_true_iff in Hlow as [_ Hlen]. apply Z.gtb_lt in Hlen.
        destruct (choice_registered k m) as (bot & c & -> & Hc); [lia|].
        rewrite stop_eq, Hc.
        destruct docker_fails as [e|]; unfold outcome, trace; simpl;
          (split; [eauto|intros name H; not_in_trace H]).
      + unfold outcome, trace. simpl.
        split; [eauto|intros name H; not_in_trace H]. }
  split; [done|]. split; [|done].
  intros ->. by destruct H1 as [H|(e & He & _)].
Qed.

(** X14.  One call of [auto_scale_bots] changes the number of bots by at most
    one, never removes the last bot, leaves a registry that was within its
    capacity within its capacity, and leaves the configuration of the
    manager as it was. *)
Theorem auto_scale_changes_one_bot_at_most (cpu mem : Q) (rnd : Z) (k : nat)
    (docker_fails : option Exn) (m : ShadowBotManager) :
  let m' := state (auto_scale_bots cpu mem rnd k docker_fails m) in
  (len_bots m - 1 <= len_bots m' <= len_bots m + 1)%Z
  /\ ((1 <= len_bots m)%Z -> (1 <= len_bots m')%Z)
  /\ (within_capacity m -> within_capacity m')
  /\ max_bots m' = max_bots m
  /\ image_name m' = image_name m
  /\ cpu_limit m' = cpu_limit m
  /\ mem_limit m' = mem_limit m.
Proof.
  intros m'. unfold within_capacity.
  destruct (auto_scale_state cpu mem rnd k docker_fails m)
    as [H|[(Hlt & name & c & H)|(Hlen & name & Hreg & H)]];
    fold m' in H; rewrite H; clear H.
  - repeat split; lia.
  - rewrite len_bots_insert. simpl.
    destruct (bots m !! name); repeat split; lia.
  - rewrite len_bots_delete by done. simpl. repeat split; lia.
Qed.

Lemma do_op_within_capacity (o : Op) (m : ShadowBotManager) :
  within_capacity m ->
  within_capacity (do_op o m) /\ max_bots (do_op o m) = max_bots m.
Proof.
  intros Hm. destruct o as [c|cpu mem rnd k docker_fails]; simpl.
  - split; [by apply do_call_within_capacity|apply do_call_max_bots].
  - destruct (auto_scale_state cpu mem rnd k docker_fails m)
      as [H|[(Hlt & name & c & H)|(Hlen & name & Hreg & H)]];
      simpl in H; rewrite H; clear H; unfold within_capacity in *.
    + done.
    + rewrite len_bots_insert. simpl. destruct (bots m !! name); split; lia.
    + rewrite len_bots_delete by done. simpl. split; lia.
Qed.

(** X15.  The capacity invariant also holds under auto-scaling: from the
    empty registry of [__init__] with a capacity [max_bots >= 0], after any
    sequence of [create_shadow_bot], [stop_shadow_bot] and [auto_scale_bots]
    calls, whatever the load read and whatever the runtime answers, the
    registry holds at most [max_bots] entries. *)
Theorem capacity_under_auto_scaling (n : Z) (image : string) (cpu : Q)
    (mem : string) (ops : list Op) :
  (0 <= n)%Z ->
  let m := run_ops ops (init n image cpu mem) in
  (len_bots m <= n)%Z /\ max_bots m = n.
Proof.
  intros Hn m.
  assert (forall m0, within_capacity m0 ->
            within_capacity (run_ops ops m0)
            /\ max_bots (run_ops ops m0) = max_bots m0) as Hinv.
  { induction ops as [|o ops IH]; intros m0 Hm0; [done|].
    simpl. destruct (do_op_within_capacity o m0 Hm0) as [H1 H2].
    destruct (IH _ H1) as [H3 H4]. split; [done|]. by rewrite H4. }
  destruct (Hinv (init n image cpu mem)) as [Hcap Hmax].
  { unfold within_capacity, len_bots. simpl. rewrite map_size_empty. lia. }
  fold m in Hcap, Hmax. unfold within_capacity in Hcap. simpl in Hmax.
  split; [lia|done].
Qed.

Lemma capacity_under_auto_scaling_witness :
  let m :=
    run_ops [AutoScale 90 10 1 0 None; AutoScale 10 90 2 0 None;
             AutoScale 95 95 3 0 None; Client (Create (Some "x") 0 None);
             AutoScale 10 10 4 1 None]
      (init 2 "shadow_bot_image" 0.5 "256m") in
  len_bots m = 1%Z /\ (len_bots m <= 2)%Z /\ max_bots m = 2%Z.
Proof.
  split; [by vm_compute|].
  apply (capacity_under_auto_scaling 2 "shadow_bot_image" 0.5 "256m"). lia.
Defined.

(** *** The script *)

Lemma len_bots_init n image cpu mem : len_bots (init n image cpu mem) = 0%Z.
Proof. unfold len_bots. simpl. by rewrite map_size_empty. Qed.

Ltac run_in_trace H :=
  repeat (apply elem_of_cons in H as [H|H];
          [first [discriminate H | injection H as ->; tauto]|]);
  by apply elem_of_nil in H.

Lemma main_eq rnd1 run_fails cpu mem rnd2 k docker_fails :
  let m0 := init 5 "shadow_bot_image" 0.5 "256m" in
  let name1 := "shadow_bot_" +:+ str rnd1 in
  let c1 := new_container m0 name1 in
  let m1 := set_bots (insert name1 c1) m0 in
  let name2 := "shadow_bot_" +:+ str rnd2 in
  let c2 := new_container m1 name2 in
  let m2 := set_bots (insert name2 c2) m1 in
  let started :=
    [DockerRun c1; count_gauge 1; Stdout (started_message name1)]
    ++ load_gauges cpu mem in
  main rnd1 run_fails cpu mem rnd2 k docker_fails
  = match run_fails with
    | Some e => ([DockerRun c1], m0, inl e)
    | None =>
        if gt cpu 80 || gt mem 80 then
          match docker_fails with
          | Some e =>
              (started ++ [Stdout high_load_message; DockerRun c2], m1, inl e)
          | None =>
              (started
               ++ [Stdout high_load_message; DockerRun c2;
                   count_gauge (len_bots m2); Stdout (started_message name2);
                   Stdout (adjusted_message (len_bots m2))], m2, inr tt)
          end
        else (started ++ [Stdout (adjusted_message 1)], m1, inr tt)
    end.
Proof.
  intros m0 name1 c1 m1 name2 c2 m2 started. unfold main. fold m0.
  assert (len_bots m0 = 0%Z) as Hlen0 by apply len_bots_init.
  assert (len_bots m1 = 1%Z) as Hlen1.
  { unfold m1. rewrite len_bots_insert.
    change (bots m0) with (∅ : gmap string Container).
    rewrite lookup_empty. lia. }
  assert (max_bots m1 = 5%Z) as Hmax1 by reflexivity.
  pose proof (create_below_capacity m0 None rnd1 run_fails) as Hc.
  change (chosen_name None rnd1) with name1 in Hc. fold c1 in Hc.
  fold m1 in Hc.
  destruct run_fails as [e|].
  { apply bind_raise. apply Hc. rewrite Hlen0. reflexivity. }
  erewrite bind_ok by (apply Hc; rewrite Hlen0; reflexivity).
  fold c1. fold m1.
  rewrite auto_scale_eq. rewrite Hlen1, Hmax1.
  change (1 <? 5)%Z with true. change (1 >? 1)%Z with false.
  rewrite andb_true_r, andb_false_r.
  destruct (gt cpu 80 || gt mem 80).
  - pose proof (create_below_capacity m1 None rnd2 docker_fails) as Hc2.
    cbv zeta in Hc2.
    change (chosen_name None rnd2) with name2 in Hc2. fold c2 in Hc2.
    fold m2 in Hc2. rewrite Hc2 by (rewrite Hlen1, Hmax1; reflexivity).
    destruct docker_fails as [e|]; reflexivity.
  - reflexivity.
Qed.

(** X16.  The script of the module (one manager with the default parameters,
    one [create_shadow_bot()], one [auto_scale_bots()]) never removes a
    container, whatever the load and the runtime's answers; every container
    it starts has the image [shadow_bot_image], the memory limit [256m] and
    the CPU quota 50000; and when the runtime does not fail it ends normally
    with one or two bots registered, the first of them [shadow_bot_<rnd1>]. *)
Theorem main_starts_one_or_two_bots (rnd1 : Z) (run_fails : option Exn)
    (cpu mem : Q) (rnd2 : Z) (k : nat) (docker_fails : option Exn) :
  let r := main rnd1 run_fails cpu mem rnd2 k docker_fails in
  (forall name, DockerRemove name ∉ trace r)
  /\ (forall c, DockerRun c ∈ trace r ->
        c_image c = "shadow_bot_image" /\ c_mem_limit c = "256m"
        /\ c_cpu_quota c = 50000%Z)
  /\ (run_fails = None -> docker_fails = None ->
      outcome r = inr tt
      /\ (1 <= len_bots (state r) <= 2)%Z
      /\ is_Some (bots (state r) !! ("shadow_bot_" +:+ str rnd1))).
Proof.
  intros r. unfold r. rewrite main_eq.
  set (m0 := init 5 "shadow_bot_image" 0.5 "256m").
  set (name1 := "shadow_bot_" +:+ str rnd1).
  set (c1 := new_container m0 name1).
  set (m1 := set_bots (insert name1 c1) m0).
  set (name2 := "shadow_bot_" +:+ str rnd2).
  set (c2 := new_container m1 name2).
  set (m2 := set_bots (insert name2 c2) m1).
  assert (len_bots m1 = 1%Z) as Hlen1.
  { unfold m1. rewrite len_bots_insert.
    change (bots m0) with (∅ : gmap string Container).
    rewrite lookup_empty. unfold m0. by rewrite len_bots_init. }
  assert (1 <= len_bots m2 <= 2)%Z as Hlen2.
  { unfold m2. rewrite len_bots_insert. destruct (bots m1 !! name2); lia. }
  assert (is_Some (bots m1 !! name1)) as Hreg1.
  { unfold m1. cbn [bots set_bots]. rewrite lookup_insert_eq. eauto. }
  assert (is_Some (bots m2 !! name1)) as Hreg2.
  { unfold m2. cbn [bots set_bots].
    destruct (decide (name2 = name1)) as [->|Hne].
    - rewrite lookup_insert_eq. eauto.
    - by rewrite lookup_insert_ne. }
  assert (forall c, c = c1 \/ c = c2 ->
            c_image c = "shadow_bot_image" /\ c_mem_limit c = "256m"
            /\ c_cpu_quota c = 50000%Z) as Hrun
    by (intros c [Hc|Hc]; rewrite Hc; repeat split; reflexivity).
  clearbody c1 c2 m1 m2 name1 name2 m0.
  destruct run_fails as [e|]; [|destruct (gt cpu 80 || gt mem 80);
                                 [destruct docker_fails as [e|]|]];
    cbn [trace outcome state fst snd app load_gauges];
    (split; [intros name H; not_in_trace H|]);
    (split; [intros c H; apply Hrun; run_in_trace H|]); try done.
  intros _ _. rewrite Hlen1. split; [done|]. split; [lia|done].
Qed.

End ShadowBot.

(** ** A bounded history: append, then drop the oldest entry past [cap] *)

Module Window.

Section History.
Context {A : Type}.
Variable cap : nat.

(** [h.append(x)] followed by [if len(h) > cap: h.pop(0)]. *)
Definition push (x : A) (h : list A) : list A :=
  let h := h ++ [x] in
  if (cap <? length h)%nat then drop 1 h else h.

Definition push_all (xs : list A) (h : list A) : list A :=
  foldl (fun h x => push x h) h xs.

Lemma push_all_app (xs ys h : list A) :
  push_all (xs ++ ys) h = push_all ys (push_all xs h).
Proof. apply foldl_app. Qed.

Lemma push_drop (x : A) (h : list A) :
  length h <= cap ->
  push x h = drop (length (h ++ [x]) - cap) (h ++ [x]).
Proof.
  intros Hh. unfold push. rewrite length_app. simpl.
  destruct (Nat.ltb_spec cap (length h + 1)) as [Hlt|Hge].
  - by replace (length h + 1 - cap) with 1 by lia.
  - by replace (length h + 1 - cap) with 0 by lia.
Qed.

Lemma push_length (x : A) (h : list A) :
  length h <= cap -> length (push x h) <= cap.
Proof.
  intros Hh. rewrite push_drop by done.
  rewrite length_drop, length_app. simpl. lia.
Qed.

Lemma push_all_drop (xs h : list A) :
  length h <= cap ->
  push_all xs h = drop (length (h ++ xs) - cap) (h ++ xs).
Proof.
  revert h. induction xs as [|x xs IH]; intros h Hh.
  - simpl. rewrite app_nil_r. by replace (length h - cap) with 0 by lia.
  - simpl. rewrite IH by by apply push_length.
    rewrite push_drop by done.
    replace (h ++ x :: xs) with ((h ++ [x]) ++ xs) by by rewrite <- app_assoc.
    set (l := h ++ [x]).
    assert (length l = S (length h)) as Hl
      by (unfold l; rewrite length_app; simpl; lia).
    rewrite <- (drop_app_le l xs) by lia.
    rewrite drop_drop, length_drop. f_equal.
    rewrite !length_app. lia.
Qed.

Lemma push_last (x : A) (h : list A) :
  1 <= cap -> exists older, push x h = older ++ [x].
Proof.
  intros Hcap. unfold push.
  destruct (Nat.ltb_spec cap (length (h ++ [x]))) as [Hlt|Hge]; [|by exists h].
  destruct h as [|y h]; [simpl in Hlt; lia|]. by exists h.
Qed.

Lemma push_push_last (x y : A) (h : list A) :
  2 <= cap -> exists older, push y (push x h) = older ++ [x; y].
Proof.
  intros Hcap. destruct (push_last x h) as [l ->]; [lia|].
  unfold push.
  destruct (Nat.ltb_spec cap (length ((l ++ [x]) ++ [y]))) as [Hlt|Hge].
  - destruct l as [|z l]; [simpl in Hlt; lia|].
    exists l. simpl. by rewrite <- app_assoc.
  - exists l. by rewrite <- app_assoc.
Qed.

Lemma push_all_length (xs h : list A) :
  length h <= cap -> length (push_all xs h) <= cap.
Proof.
  intros Hh. rewrite push_all_drop by done. rewrite length_drop. lia.
Qed.

End History.

End Window.

(** ** Python floats *)

Module Float.
Import Py.

(** The operations on floats [task_manager.py] uses.
    - [of_int n] is [float(n)], the conversion Python applies to an int
      operand of a float operation;
    - [int_div a b] is [a / b] on two ints, for [b] other than 0 (the
      division itself is guarded where it is used); a decimal literal such
      as [1.2] is the float [int_div 12 10];
    - [add], [mul] and [div] are [+], [*] and [/] on floats;
    - [gtb a b] is [a > b];
    - [to_int x] is [int(x)] on a finite float: truncation towards zero. *)
Record Arith := {
  float : Type;
  of_int : Z -> float;
  int_div : Z -> Z -> float;
  add : float -> float -> float;
  mul : float -> float -> float;
  div : float -> float -> float;
  gtb : float -> float -> bool;
  to_int : float -> Z;
}.

Arguments add {_} _ _.
Arguments mul {_} _ _.
Arguments div {_} _ _.
Arguments gtb {_} _ _.
Arguments to_int {_} _.

(** The exact arithmetic of the rationals. *)
Definition Exact : Arith :=
  {| float := Q;
     of_int := inject_Z;
     int_div := fun a b => (inject_Z a / inject_Z b)%Q;
     add := Qplus;
     mul := Qmult;
     div := Qdiv;
     gtb := Py.gt;
     to_int := Py.int |}.

(** IEEE 754 double precision, as CPython computes: 53 bits of mantissa,
    round to nearest even. *)
Definition prec : Z := 53.
Definition emax : Z := 1024.

(** An int as an unrounded binary number. *)
Definition exact_int (z : Z) : spec_float :=
  match z with
  | Z0 => S754_zero false
  | Zpos p => S754_finite false p 0
  | Zneg p => S754_finite true p 0
  end.

(** [int(x)]: the mantissa shifted by the exponent, the bits below the point
    dropped. *)
Definition truncate (x : spec_float) : Z :=
  match x with
  | S754_finite s m e =>
      let n := match e with
               | Zneg p => Z.shiftr (Zpos m) (Zpos p)
               | _ => Z.shiftl (Zpos m) e
               end in
      if s then (- n)%Z else n
  | _ => 0%Z
  end.

Definition Binary64 : Arith :=
  {| float := spec_float;
     of_int := fun z => binary_normalize prec emax z 0 false;
     int_div := fun a b => SFdiv prec emax (exact_int a) (exact_int b);
     add := SFadd prec emax;
     mul := SFmul prec emax;
     div := SFdiv prec emax;
     gtb := fun a b => SFltb b a;
     to_int := truncate |}.

(** Every float above [hi] is above [lo]. *)
Definition above {F : Arith} (lo hi : float F) : Prop :=
  forall x : float F, gtb x hi = true -> gtb x lo = true.


(** On positive finite doubles the order is the order of the exponents,
    then of the mantissas. *)
Lemma Binary64_above (ma mb : positive) (ea eb : Z) :
  (ea < eb)%Z \/ (ea = eb /\ (ma <= mb)%positive) ->
  @above Binary64 (S754_finite false ma ea) (S754_finite false mb eb).
Proof.
  intros Hlt x. simpl. unfold SFltb.
  destruct x as [s|s| |s m e]; simpl; try done.
  destruct s; [done|].
  destruct (Z.compare_spec eb e) as [Heq|Hl|Hg];
    destruct (Z.compare_spec ea e) as [Heq'|Hl'|Hg']; try done; try lia.
  rewrite !Pos.compare_cont_spec. simpl.
  destruct (Pos.compare_spec mb m) as [Hm|Hm|Hm]; simpl; try done.
  intros _.
  destruct (Pos.compare_spec ma m) as [Hm'|Hm'|Hm']; simpl; try done; lia.
Qed.

(** Some doubles, as CPython computes them. *)
Example double_1_2 :
  int_div Binary64 12 10 = S754_finite false 5404319552844595 (-52).
Proof. by vm_compute. Qed.

Example double_of_large_int :
  of_int Binary64 (2 ^ 63 - 4096) = S754_finite false 9007199254740988 10.
Proof. by vm_compute. Qed.

Example double_mean :
  int_div Binary64 150005 3 = S754_finite false 6872176738522453 (-37)
  /\ to_int (mul (int_div Binary64 150005 3) (int_div Binary64 12 10))
     = 60001%Z.
Proof. split; by vm_compute. Qed.

End Float.
(** ** task_manager.py *)

Module TaskMgr.
Import Py Eff Float.
Local Open Scope eff_scope.

(** One entry of [load_history]:
    [(cpu_usage, mem_usage, system_cpu_usage, system_mem_usage)].  The two
    usages are ints (Docker's counters), the two percentages floats. *)
Definition SampleOf (fl : Type) : Type := Z * Z * fl * fl.

Definition s_cpu {fl} (x : SampleOf fl) : Z := x.1.1.1.
Definition s_mem {fl} (x : SampleOf fl) : Z := x.1.1.2.
Definition s_system_cpu {fl} (x : SampleOf fl) : fl := x.1.2.
Definition s_system_mem {fl} (x : SampleOf fl) : fl := x.2.

(** What one iteration of the loop reads from [container.stats] and psutil. *)
Record ReadingOf (fl : Type) := {
  cpu_usage : Z;
  mem_usage : Z;
  mem_limit : Z;
  system_cpu_usage : fl;
  system_mem_usage : fl;
}.

Arguments cpu_usage {fl} _.
Arguments mem_usage {fl} _.
Arguments mem_limit {fl} _.
Arguments system_cpu_usage {fl} _.
Arguments system_mem_usage {fl} _.

Definition sample_of {fl} (r : ReadingOf fl) : SampleOf fl :=
  (cpu_usage r, mem_usage r, system_cpu_usage r, system_mem_usage r).

(** A Docker container handle: its identity and the limits the runtime
    currently holds for it. *)
Record Container := {
  c_id : string;
  c_mem_limit : Z;
  c_cpu_quota : Z;
}.

(** The fields of [TaskManager] the monitor reads and writes. *)
Record TaskManagerOf (fl : Type) := {
  max_containers : Z;
  webhook_url : option string;
  containers : gmap string Container;
  load_history : list (SampleOf fl);
}.

Arguments max_containers {fl} _.
Arguments webhook_url {fl} _.
Arguments containers {fl} _.
Arguments load_history {fl} _.

Definition set_load_history {fl}
    (f : list (SampleOf fl) -> list (SampleOf fl)) (tm : TaskManagerOf fl)
    : TaskManagerOf fl :=
  {| max_containers := max_containers tm; webhook_url := webhook_url tm;
     containers := containers tm; load_history := f (load_history tm) |}.

(** [TaskManager.__init__]. *)
Definition init {fl} (max_containers : Z) (webhook_url : option string)
    : TaskManagerOf fl :=
  {| max_containers := max_containers; webhook_url := webhook_url;
     containers := ∅; load_history := [] |}.

(** Calls to the outside world. *)
Inductive EventOf (fl : Type) :=
| GaugeSet (gauge : string) (value : fl)
| HttpPost (url : string) (text : string)
| Stdout (line : string)
| DbInsert (event : string)
| ContainerUpdateMem (id : string) (mem_limit : string)
| ContainerUpdateCpu (id : string) (cpu_quota : Z)
| ContainerRestart (id : string).

Arguments GaugeSet {fl} _ _.
Arguments HttpPost {fl} _ _.
Arguments Stdout {fl} _.
Arguments DbInsert {fl} _.
Arguments ContainerUpdateMem {fl} _ _.
Arguments ContainerUpdateCpu {fl} _ _.
Arguments ContainerRestart {fl} _.

(** The types over the floats of an arithmetic. *)
Abbreviation Sample F := (SampleOf (float F)).
Abbreviation Reading F := (ReadingOf (float F)).
Abbreviation TaskManager F := (TaskManagerOf (float F)).
Abbreviation Event F := (EventOf (float F)).

(** What [requests.post] does: it raises, or it returns a response with a
    status code. *)
Inductive PostAnswer :=
| PostRaises (e : Exn)
| PostResponds (status : Z).

(** [a / b] on a float and an int, and on two ints: [ZeroDivisionError] when
    [b] is 0. *)
Definition truediv {F St} (a : float F) (b : Z) : M St (Event F) (float F) :=
  if (b =? 0)%Z then raise ZeroDivisionError else ret (div a (of_int F b)).

Definition truediv_int {F St} (a b : Z) : M St (Event F) (float F) :=
  if (b =? 0)%Z then raise ZeroDivisionError else ret (int_div F a b).

(** [sum(xs)] on floats: a left fold from the int [0], each addition rounded
    (CPython up to 3.11; later versions add a compensation term). *)
Definition sum_float {F} (xs : list (float F)) : float F :=
  foldl add (of_int F 0) xs.

(** The literals [0.8], [0.85], [0.9] and [1.2]. *)
Definition c0_8 (F : Arith) : float F := int_div F 8 10.
Definition c0_85 (F : Arith) : float F := int_div F 85 100.
Definition c0_9 (F : Arith) : float F := int_div F 9 10.
Definition c1_2 (F : Arith) : float F := int_div F 12 10.

(** The message of the exception line 112 raises: the class defines no
    method [_scale_up]. *)
Definition no_scale_up : string :=
  "'TaskManager' object has no attribute '_scale_up'".

(** The four decisions of the scaling policy. *)
Inductive Action := GrowMemory | GrowCpu | RestartContainer | ScaleOut.

#[global] Instance Action_eq_dec : EqDecision Action.
Proof. solve_decision. Defined.

(** The action a call to the runtime carries out. *)
Definition action_of {fl} (e : EventOf fl) : option Action :=
  match e with
  | ContainerUpdateMem _ _ => Some GrowMemory
  | ContainerUpdateCpu _ _ => Some GrowCpu
  | ContainerRestart _ => Some RestartContainer
  | _ => None
  end.

(** The actions carried out in a trace, in order. *)
Definition actions_of {fl} (t : list (EventOf fl)) : list Action :=
  omap action_of t.

(** The rows a trace inserts into the [logs] table, in order. *)
Definition db_rows {fl} (t : list (EventOf fl)) : list string :=
  omap (fun e => match e with DbInsert row => Some row | _ => None end) t.

(** The [container.update] calls of a trace, in order. *)
Definition updates_of {fl} (t : list (EventOf fl)) : list (EventOf fl) :=
  omap (fun e => match e with
                 | ContainerUpdateMem _ _ | ContainerUpdateCpu _ _ => Some e
                 | _ => None
                 end) t.

(** The webhook POSTs of a trace, in order: the URL and the text. *)
Definition posts_of {fl} (t : list (EventOf fl))
    : list (string * string) :=
  omap (fun e => match e with
                 | HttpPost url text => Some (url, text)
                 | _ => None
                 end) t.

(** What the runtime is asked for concerns the container [id]. *)
Definition addresses {fl} (id : string) (e : EventOf fl) : Prop :=
  match e with
  | ContainerUpdateMem id' _ | ContainerUpdateCpu id' _
  | ContainerRestart id' => id' = id
  | _ => True
  end.

(** A projection of traces that ignores the gauges, the webhook and stdout. *)
Definition quiet {fl X} (f : EventOf fl -> option X) : Prop :=
  (forall g v, f (GaugeSet g v) = None)
  /\ (forall url text, f (HttpPost url text) = None)
  /\ (forall line, f (Stdout line) = None).

Definition ram_message (bot_name : string) : string :=
  "Zwiększanie zasobów RAM dla kontenera " +:+ bot_name +:+ ".".
Definition cpu_message (bot_name : string) : string :=
  "Zwiększanie zasobów CPU dla kontenera " +:+ bot_name +:+ ".".
Definition restart_message (bot_name : string) : string :=
  "Restartowanie kontenera " +:+ bot_name
  +:+ " z powodu wysokiego zużycia zasobów.".
Definition scale_message : string :=
  "Skalowanie systemu: dodawanie nowego kontenera.".

(** The message an action alerts and logs. *)
Definition message_of (bot_name : string) (x : Action) : string :=
  match x with
  | GrowMemory => ram_message bot_name
  | GrowCpu => cpu_message bot_name
  | RestartContainer => restart_message bot_name
  | ScaleOut => scale_message
  end.

(** The smoothed values of one iteration: [avg_cpu], [avg_mem],
    [avg_system_cpu], [avg_system_mem]. *)
Record SmoothedOf (fl : Type) := {
  avg_cpu : fl;
  avg_mem : fl;
  avg_system_cpu : fl;
  avg_system_mem : fl;
}.

Arguments avg_cpu {fl} _.
Arguments avg_mem {fl} _.
Arguments avg_system_cpu {fl} _.
Arguments avg_system_mem {fl} _.

Abbreviation Smoothed F := (SmoothedOf (float F)).

(** The POSTs [_send_webhook_alert] makes for the messages [rows], one after
    the other. *)
Definition alerts_for {fl} (tm : TaskManagerOf fl) (rows : list string)
    : list (string * string) :=
  match webhook_url tm with
  | Some url => if truthy (Some url) then (fun text => (url, text)) <$> rows
                else []
  | None => []
  end.

Section Monitor.

Context {F : Arith}.

(** What [requests.post(url, json={"text": text})] does. *)
Variable post : string -> string -> PostAnswer.

(** [_log_event(event)]: one row [(now, event)] inserted into [logs]. *)
Definition _log_event (event : string) : M (TaskManager F) (Event F) unit :=
  emit (DbInsert event).

(** [_send_webhook_alert(message)].  The response of the POST is dropped. *)
Definition _send_webhook_alert (message : string)
    : M (TaskManager F) (Event F) unit :=
  self <- get ;
  match webhook_url self with
  | Some url =>
      if truthy (Some url) then
        try_except
          (call (HttpPost url message)
             match post url message with
             | PostRaises e => Some e
             | PostResponds _ => None
             end)
          (fun e =>
             emit (Stdout ("Błąd podczas wysyłania webhooka: " +:+ exn_str e)))
      else ret tt
  | None => ret tt
  end.

(** Lines 75-77: the sample is appended and, past ten entries, the first
    entry is popped. *)
Definition record_sample (r : Reading F) : M (TaskManager F) (Event F) unit :=
  modify (set_load_history (fun h => h ++ [sample_of r])) ;;
  self <- get ;
  if Z.gtb (len (load_history self)) 10
  then modify (set_load_history (drop 1)) else ret tt.

(** Lines 79-82: the four averages over [load_history]. *)
Definition smooth : M (TaskManager F) (Event F) (Smoothed F) :=
  self <- get ;
  let h := load_history self in
  avg_cpu <- truediv_int (sum_int (s_cpu <$> h)) (len h) ;
  avg_mem <- truediv_int (sum_int (s_mem <$> h)) (len h) ;
  avg_system_cpu <- truediv (sum_float (s_system_cpu <$> h)) (len h) ;
  avg_system_mem <- truediv (sum_float (s_system_mem <$> h)) (len h) ;
  ret {| avg_cpu := avg_cpu; avg_mem := avg_mem;
         avg_system_cpu := avg_system_cpu;
         avg_system_mem := avg_system_mem |}.

(** Lines 85-88: the Prometheus gauges. *)
Definition export_gauges (a : Smoothed F) : M (TaskManager F) (Event F) unit :=
  emit (GaugeSet "bot_cpu_usage" (avg_cpu a)) ;;
  emit (GaugeSet "bot_mem_usage" (avg_mem a)) ;;
  emit (GaugeSet "system_cpu_usage" (avg_system_cpu a)) ;;
  emit (GaugeSet "system_mem_usage" (avg_system_mem a)).

(** Lines 90-94. *)
Definition grow_memory (bot_name : string) (container : Container)
    (a : Smoothed F) (mem_limit : Z) : M (TaskManager F) (Event F) unit :=
  ratio <- truediv (avg_mem a) mem_limit ;
  if gtb ratio (c0_8 F) || gtb (avg_system_mem a) (of_int F 85) then
    let message := ram_message bot_name in
    _send_webhook_alert message ;;
    _log_event message ;;
    emit (ContainerUpdateMem (c_id container)
            (str (to_int (mul (of_int F mem_limit) (c1_2 F)))))
  else ret tt.

(** Lines 96-100. *)
Definition grow_cpu (bot_name : string) (container : Container)
    (a : Smoothed F) : M (TaskManager F) (Event F) unit :=
  if gtb (avg_cpu a) (of_int F 50000) || gtb (avg_system_cpu a) (of_int F 85)
  then
    let message := cpu_message bot_name in
    _send_webhook_alert message ;;
    _log_event message ;;
    emit (ContainerUpdateCpu (c_id container)
            (to_int (mul (avg_cpu a) (c1_2 F))))
  else ret tt.

(** Lines 102-106. *)
Definition restart_container (bot_name : string) (container : Container)
    (a : Smoothed F) (mem_limit : Z) : M (TaskManager F) (Event F) unit :=
  ratio <- truediv (avg_mem a) mem_limit ;
  if gtb ratio (c0_9 F) || gtb (avg_cpu a) (of_int F 70000) then
    let message := restart_message bot_name in
    _send_webhook_alert message ;;
    _log_event message ;;
    emit (ContainerRestart (c_id container))
  else ret tt.

(** Lines 108-112.  [or] evaluates the division only when the first
    comparison is false.  In [self._scale_up(container.image.tags[0])] the
    attribute [self._scale_up] is looked up before the argument is
    evaluated, and [TaskManager] has no such attribute: the call raises
    [AttributeError]. *)
Definition scale_out (a : Smoothed F) (mem_limit : Z)
    : M (TaskManager F) (Event F) unit :=
  due <-
    (if gtb (avg_cpu a) (of_int F 60000) then ret true
     else ratio <- truediv (avg_mem a) mem_limit ;
          ret (gtb ratio (c0_85 F))) ;
  if due : bool then
    let message := scale_message in
    _send_webhook_alert message ;;
    _log_event message ;;
    raise (AttributeError no_scale_up)
  else ret tt.

(** One iteration of the [while True] loop of [_monitor_container], from the
    readings of [stats] and psutil to the [time.sleep(5)]. *)
Definition monitor_tick (bot_name : string) (container : Container)
    (r : Reading F) : M (TaskManager F) (Event F) unit :=
  record_sample r ;;
  a <- smooth ;
  export_gauges a ;;
  grow_memory bot_name container a (mem_limit r) ;;
  grow_cpu bot_name container a ;;
  restart_container bot_name container a (mem_limit r) ;;
  scale_out a (mem_limit r).

(** The loop of [_monitor_container] over the readings of its first
    iterations; an exception leaves the loop. *)
Fixpoint monitor_loop (bot_name : string) (container : Container)
    (rs : list (Reading F)) : M (TaskManager F) (Event F) unit :=
  match rs with
  | [] => ret tt
  | r :: rs =>
      monitor_tick bot_name container r ;;
      monitor_loop bot_name container rs
  end.

(** [_monitor_container(bot_name)], for the first [length rs] iterations. *)
Definition _monitor_container (bot_name : string) (rs : list (Reading F))
    : M (TaskManager F) (Event F) unit :=
  self <- get ;
  match containers self !! bot_name with
  | Some container => monitor_loop bot_name container rs
  | None => ret tt
  end.

(** *** What an iteration computes *)

(** The history after a sample is recorded. *)
Definition append_sample : Sample F -> list (Sample F) -> list (Sample F) :=
  Window.push 10.

(** [sum(xs) / len(xs)] on a list of ints and of floats. *)
Definition mean_int (xs : list Z) : float F :=
  int_div F (sum_int xs) (len xs).
Definition mean_float (xs : list (float F)) : float F :=
  div (sum_float xs) (of_int F (len xs)).

(** The four averages over a history. *)
Definition smoothed (h : list (Sample F)) : Smoothed F :=
  {| avg_cpu := mean_int (s_cpu <$> h);
     avg_mem := mean_int (s_mem <$> h);
     avg_system_cpu := mean_float (s_system_cpu <$> h);
     avg_system_mem := mean_float (s_system_mem <$> h) |}.

(** The memory ratio the thresholds are compared with: the averaged usage
    over the limit read in this iteration. *)
Definition memory_ratio (a : Smoothed F) (mem_limit : Z) : float F :=
  div (avg_mem a) (of_int F mem_limit).

(** The conditions of the four [if] statements. *)
Definition grow_memory_due (a : Smoothed F) (mem_limit : Z) : bool :=
  gtb (memory_ratio a mem_limit) (c0_8 F)
  || gtb (avg_system_mem a) (of_int F 85).
Definition grow_cpu_due (a : Smoothed F) : bool :=
  gtb (avg_cpu a) (of_int F 50000) || gtb (avg_system_cpu a) (of_int F 85).
Definition restart_due (a : Smoothed F) (mem_limit : Z) : bool :=
  gtb (memory_ratio a mem_limit) (c0_9 F) || gtb (avg_cpu a) (of_int F 70000).
Definition scale_out_due (a : Smoothed F) (mem_limit : Z) : bool :=
  gtb (avg_cpu a) (of_int F 60000)
  || gtb (memory_ratio a mem_limit) (c0_85 F).

(** The calls [_send_webhook_alert(message)] makes. *)
Definition alert_trace (tm : TaskManager F) (message : string)
    : list (Event F) :=
  match webhook_url tm with
  | Some url =>
      if truthy (Some url) then
        HttpPost url message ::
        match post url message with
        | PostRaises e =>
            [Stdout ("Błąd podczas wysyłania webhooka: " +:+ exn_str e)]
        | PostResponds _ => []
        end
      else []
  | None => []
  end.

(** The calls of an action: the alert, the log row, then the runtime call. *)
Definition action_trace (tm : TaskManager F) (message : string)
    (runtime : list (Event F)) : list (Event F) :=
  alert_trace tm message ++ DbInsert message :: runtime.

Definition gauges_trace (a : Smoothed F) : list (Event F) :=
  [GaugeSet "bot_cpu_usage" (avg_cpu a); GaugeSet "bot_mem_usage" (avg_mem a);
   GaugeSet "system_cpu_usage" (avg_system_cpu a);
   GaugeSet "system_mem_usage" (avg_system_mem a)].

(** The arguments of the two [container.update] calls. *)
Definition new_mem_limit (mem_limit : Z) : string :=
  str (to_int (mul (of_int F mem_limit) (c1_2 F))).
Definition new_cpu_quota (a : Smoothed F) : Z :=
  to_int (mul (avg_cpu a) (c1_2 F)).

Definition grow_memory_trace (tm : TaskManager F) (bot_name : string)
    (c : Container) (a : Smoothed F) (mem_limit : Z) : list (Event F) :=
  if grow_memory_due a mem_limit then
    action_trace tm (ram_message bot_name)
      [ContainerUpdateMem (c_id c) (new_mem_limit mem_limit)]
  else [].

Definition grow_cpu_trace (tm : TaskManager F) (bot_name : string)
    (c : Container) (a : Smoothed F) : list (Event F) :=
  if grow_cpu_due a then
    action_trace tm (cpu_message bot_name)
      [ContainerUpdateCpu (c_id c) (new_cpu_quota a)]
  else [].

Definition restart_trace (tm : TaskManager F) (bot_name : string)
    (c : Container) (a : Smoothed F) (mem_limit : Z) : list (Event F) :=
  if restart_due a mem_limit then
    action_trace tm (restart_message bot_name) [ContainerRestart (c_id c)]
  else [].

Definition scale_out_trace (tm : TaskManager F) (a : Smoothed F)
    (mem_limit : Z) : list (Event F) :=
  if scale_out_due a mem_limit then action_trace tm scale_message [] else [].

(** The manager after an iteration that read [r]. *)
Definition tick_state (r : Reading F) (tm : TaskManager F) : TaskManager F :=
  set_load_history (append_sample (sample_of r)) tm.

(** The averages an iteration that read [r] works with. *)
Definition tick_smoothed (r : Reading F) (tm : TaskManager F) : Smoothed F :=
  smoothed (load_history (tick_state r tm)).

(** How an iteration with a non-zero limit ends. *)
Definition tick_outcome (a : Smoothed F) (mem_limit : Z) : Exn + unit :=
  if scale_out_due a mem_limit then inl (AttributeError no_scale_up)
  else inr tt.

(** The decisions whose conditions hold, in the order of the [if]
    statements. *)
Definition policy (a : Smoothed F) (mem_limit : Z) : list Action :=
  (if grow_memory_due a mem_limit then [GrowMemory] else [])
  ++ (if grow_cpu_due a then [GrowCpu] else [])
  ++ (if restart_due a mem_limit then [RestartContainer] else [])
  ++ (if scale_out_due a mem_limit then [ScaleOut] else []).

(** The decisions that end in a call to the runtime. *)
Definition runtime_policy (a : Smoothed F) (mem_limit : Z) : list Action :=
  (if grow_memory_due a mem_limit then [GrowMemory] else [])
  ++ (if grow_cpu_due a then [GrowCpu] else [])
  ++ (if restart_due a mem_limit then [RestartContainer] else []).

(** What an iteration writes to the log and asks of the runtime. *)
Definition skeleton (bot_name : string) (c : Container) (a : Smoothed F)
    (mem_limit : Z) : list (Event F) :=
  (if grow_memory_due a mem_limit then
     [DbInsert (ram_message bot_name);
      ContainerUpdateMem (c_id c) (new_mem_limit mem_limit)]
   else [])
  ++ (if grow_cpu_due a then
        [DbInsert (cpu_message bot_name);
         ContainerUpdateCpu (c_id c) (new_cpu_quota a)]
      else [])
  ++ (if restart_due a mem_limit then
        [DbInsert (restart_message bot_name); ContainerRestart (c_id c)]
      else [])
  ++ (if scale_out_due a mem_limit then [DbInsert scale_message] else []).

End Monitor.

Arguments new_mem_limit F mem_limit : clear implicits.

(** *** Sequences of iterations *)

(** One iteration of the monitor of [t_bot]: all monitors run on the one
    [TaskManager], so a run of the system is a sequence of their iterations. *)
Record TickOf (fl : Type) := {
  t_bot : string;
  t_container : Container;
  t_reading : ReadingOf fl;
}.

Arguments t_bot {fl} _.
Arguments t_container {fl} _.
Arguments t_reading {fl} _.

Abbreviation Tick F := (TickOf (float F)).

Definition tick_sample {fl} (t : TickOf fl) : SampleOf fl :=
  sample_of (t_reading t).

(** The manager after a sequence of iterations.  An iteration that raises
    ends its own monitor and leaves the manager as it was at that point. *)
Definition run_ticks {F} (post : string -> string -> PostAnswer)
    (ts : list (Tick F)) (tm : TaskManager F) : TaskManager F :=
  foldl (fun tm t =>
           state (monitor_tick post (t_bot t) (t_container t) (t_reading t)
                    tm))
        tm ts.

(** The iteration of the monitor of [bot_name] that reads [r]. *)
Definition tick_of {fl} (bot_name : string) (c : Container)
    (r : ReadingOf fl) : TickOf fl :=
  {| t_bot := bot_name; t_container := c; t_reading := r |}.

(** How the thresholds of the policy lie: whatever is above 0.9 is above 0.85
    and 0.8, and whatever is above 70000 is above 60000 and 50000. *)
Definition Nested (F : Arith) : Prop :=
  above (c0_85 F) (c0_9 F) /\ above (c0_8 F) (c0_85 F)
  /\ above (of_int F 60000) (of_int F 70000)
  /\ above (of_int F 50000) (of_int F 60000).

(** *** Concrete managers and readings used below *)

(** The webhook answers 200, answers 500, or cannot be reached. *)
Definition no_failure : string -> string -> PostAnswer :=
  fun _ _ => PostResponds 200.
Definition webhook_500 : string -> string -> PostAnswer :=
  fun _ _ => PostResponds 500.
Definition webhook_down : string -> string -> PostAnswer :=
  fun _ _ => PostRaises (RequestException "connection refused").

Definition bot_a : Container :=
  {| c_id := "id-a"; c_mem_limit := 1001; c_cpu_quota := 50000 |}.
Definition bot_b : Container :=
  {| c_id := "id-b"; c_mem_limit := 1000; c_cpu_quota := 50000 |}.

(** A manager at its maximum of two containers, with a webhook. *)
Definition two_bots {fl} : TaskManagerOf fl :=
  {| max_containers := 2; webhook_url := Some "http://hook";
     containers := {[ "a" := bot_a; "b" := bot_b ]}; load_history := [] |}.

(** A reading whose host percentages are whole numbers. *)
Definition reading (F : Arith) (cpu mem limit system_cpu system_mem : Z)
    : Reading F :=
  {| cpu_usage := cpu; mem_usage := mem; mem_limit := limit;
     system_cpu_usage := of_int F system_cpu;
     system_mem_usage := of_int F system_mem |}.

(** A reading of an idle container on a host whose CPU load is
    [tenths / 10] percent. *)
Definition host_cpu_reading (F : Arith) (tenths : Z) : Reading F :=
  {| cpu_usage := 0; mem_usage := 100; mem_limit := 1000;
     system_cpu_usage := int_div F tenths 10;
     system_mem_usage := of_int F 10 |}.

(** The claim's arithmetic mean of a field, written without the functions of
    the monitor: the sum of the values over their number.  On ints the sum is
    exact; on floats the values are added one by one, the oldest first. *)
Definition spec_total (xs : list Z) : Z := foldr Z.add 0%Z xs.
Definition spec_float_total {F} (xs : list (float F)) : float F :=
  foldr (fun x acc => add acc x) (of_int F 0) (reverse xs).
Definition spec_mean_int {F} (xs : list Z) : float F :=
  int_div F (spec_total xs) (Z.of_nat (length xs)).
Definition spec_mean_float {F} (xs : list (float F)) : float F :=
  div (spec_float_total xs) (of_int F (Z.of_nat (length xs))).

(** The claim's memory ratio: the averaged usage over the averaged limit,
    both over the readings retained in the window of ten.  Only for the
    comparison with [memory_ratio]; the code keeps no limit in its history. *)
Definition spec_retained {F} (rs : list (Reading F)) : list (Reading F) :=
  drop (length rs - 10) rs.
Definition spec_memory_ratio {F} (rs : list (Reading F)) : float F :=
  div (spec_mean_int (mem_usage <$> spec_retained rs))
      (spec_mean_int (mem_limit <$> spec_retained rs)).

(** Two readings with the same usage; the limit drops from 1000 to 100. *)
Definition limit_drop_1 (F : Arith) : Reading F := reading F 0 100 1000 0 0.
Definition limit_drop_2 (F : Arith) : Reading F := reading F 0 100 100 0 0.

(** Eleven readings whose CPU usage is 10, 20, ..., 110. *)
Definition eleven_ticks {F} : list (Tick F) :=
  (fun n => {| t_bot := "a"; t_container := bot_a;
               t_reading := reading F (10 * Z.of_nat n) 100 1000 10 10 |})
  <$> seq 1 11.

(** The manager with another registry and another maximum. *)
Definition with_registry {fl} (max_containers : Z)
    (cs : gmap string Container) (tm : TaskManagerOf fl) : TaskManagerOf fl :=
  {| max_containers := max_containers; webhook_url := webhook_url tm;
     containers := cs; load_history := load_history tm |}.

(** ** Facts about the monitor *)

Section Facts.

Context {F : Arith}.
Variable post : string -> string -> PostAnswer.

(** *** The blocks of an iteration *)

Lemma record_sample_eq (r : Reading F) (tm : TaskManager F) :
  record_sample r tm
  = ([], set_load_history (append_sample (sample_of r)) tm, inr tt).
Proof.
  unfold record_sample, bind, modify, get, ret, set_load_history,
    append_sample, Window.push, len. simpl.
  destruct (Z.gtb_spec (Z.of_nat (length (load_history tm ++ [sample_of r]))) 10)
    as [Hgt|Hle];
    destruct (Nat.ltb_spec 10 (length (load_history tm ++ [sample_of r])))
    as [Hlt|Hge]; try lia; reflexivity.
Qed.

Lemma truediv_nonzero (x : float F) (b : Z) (tm : TaskManager F) :
  b <> 0%Z -> truediv x b tm = ([], tm, inr (div x (of_int F b))).
Proof. intros Hb. unfold truediv. by apply Z.eqb_neq in Hb as ->. Qed.

Lemma truediv_int_nonzero (a b : Z) (tm : TaskManager F) :
  b <> 0%Z -> truediv_int a b tm = ([], tm, inr (int_div F a b)).
Proof. intros Hb. unfold truediv_int. by apply Z.eqb_neq in Hb as ->. Qed.

Lemma len_nonempty {A} (xs : list A) : xs <> [] -> len xs <> 0%Z.
Proof. unfold len. destruct xs; [done|simpl; lia]. Qed.

Lemma smooth_eq (tm : TaskManager F) :
  load_history tm <> [] ->
  smooth tm = ([], tm, inr (smoothed (load_history tm))).
Proof.
  intros Hh. apply len_nonempty in Hh. unfold smooth.
  rewrite (bind_ok _ _ tm [] tm tm) by reflexivity. rewrite after_nil.
  do 2 (erewrite bind_ok by (by apply truediv_int_nonzero);
        rewrite after_nil).
  do 2 (erewrite bind_ok by (by apply truediv_nonzero); rewrite after_nil).
  unfold ret, smoothed, mean_int, mean_float, len.
  by rewrite !length_fmap.
Qed.

Lemma export_gauges_eq (a : Smoothed F) (tm : TaskManager F) :
  export_gauges a tm = (gauges_trace a, tm, inr tt).
Proof. reflexivity. Qed.

Lemma alert_eq (message : string) (tm : TaskManager F) :
  _send_webhook_alert post message tm
  = (alert_trace post tm message, tm, inr tt).
Proof.
  unfold _send_webhook_alert, alert_trace, bind, get, try_except, call, emit,
    ret.
  destruct (webhook_url tm) as [url|]; [|reflexivity].
  destruct (truthy (Some url)); [|reflexivity].
  by destruct (post url message).
Qed.

Lemma action_eq (message : string) (ev : Event F) (tm : TaskManager F) :
  (_send_webhook_alert post message ;; _log_event message ;; emit ev) tm
  = (action_trace post tm message [ev], tm, inr tt).
Proof.
  rewrite (bind_ok _ _ _ _ _ _ (alert_eq message tm)). reflexivity.
Qed.

Lemma grow_memory_eq bot_name c a mem_limit (tm : TaskManager F) :
  mem_limit <> 0%Z ->
  grow_memory post bot_name c a mem_limit tm
  = (grow_memory_trace post tm bot_name c a mem_limit, tm, inr tt).
Proof.
  intros Hl. unfold grow_memory, grow_memory_trace, grow_memory_due,
    memory_ratio.
  erewrite bind_ok by (by apply truediv_nonzero). rewrite after_nil.
  destruct (_ || _); [apply action_eq|reflexivity].
Qed.

Lemma grow_cpu_eq bot_name c a (tm : TaskManager F) :
  grow_cpu post bot_name c a tm
  = (grow_cpu_trace post tm bot_name c a, tm, inr tt).
Proof.
  unfold grow_cpu, grow_cpu_trace, grow_cpu_due.
  destruct (_ || _); [apply action_eq|reflexivity].
Qed.

Lemma restart_container_eq bot_name c a mem_limit (tm : TaskManager F) :
  mem_limit <> 0%Z ->
  restart_container post bot_name c a mem_limit tm
  = (restart_trace post tm bot_name c a mem_limit, tm, inr tt).
Proof.
  intros Hl. unfold restart_container, restart_trace, restart_due,
    memory_ratio.
  erewrite bind_ok by (by apply truediv_nonzero). rewrite after_nil.
  destruct (_ || _); [apply action_eq|reflexivity].
Qed.

Lemma scale_out_eq a mem_limit (tm : TaskManager F) :
  mem_limit <> 0%Z ->
  scale_out post a mem_limit tm
  = (scale_out_trace post tm a mem_limit, tm, tick_outcome a mem_limit).
Proof.
  intros Hl. unfold scale_out, scale_out_trace, tick_outcome, scale_out_due,
    memory_ratio.
  assert ((if gtb (avg_cpu a) (of_int F 60000) then ret true
           else ratio <- truediv (avg_mem a) mem_limit ;
                ret (gtb ratio (c0_85 F))) tm
          = ([], tm, inr (gtb (avg_cpu a) (of_int F 60000)
                          || gtb (div (avg_mem a) (of_int F mem_limit))
                               (c0_85 F))))
    as Hdue.
  { destruct (gtb (avg_cpu a) (of_int F 60000)); [reflexivity|].
    erewrite bind_ok by (by apply truediv_nonzero). by rewrite after_nil. }
  rewrite (bind_ok _ _ _ _ _ _ Hdue), after_nil.
  destruct (_ || _); [|reflexivity].
  rewrite (bind_ok _ _ _ _ _ _ (alert_eq scale_message tm)).
  unfold action_trace, after, trace, state, outcome, bind, _log_event, emit,
    raise. simpl. by rewrite ?app_nil_r.
Qed.

(** *** One iteration as a whole *)

Lemma append_sample_nonempty (x : Sample F) (h : list (Sample F)) :
  append_sample x h <> [].
Proof.
  unfold append_sample, Window.push.
  destruct (Nat.ltb_spec 10 (length (h ++ [x]))) as [Hlt|Hge].
  - intros Hnil. apply (f_equal length) in Hnil.
    rewrite length_drop in Hnil. simpl in Hnil. lia.
  - by destruct h.
Qed.

Lemma monitor_tick_eq bot_name c r (tm : TaskManager F) :
  mem_limit r <> 0%Z ->
  let tm' := tick_state r tm in
  let a := tick_smoothed r tm in
  monitor_tick post bot_name c r tm
  = (gauges_trace a
     ++ grow_memory_trace post tm' bot_name c a (mem_limit r)
     ++ grow_cpu_trace post tm' bot_name c a
     ++ restart_trace post tm' bot_name c a (mem_limit r)
     ++ scale_out_trace post tm' a (mem_limit r),
     tm', tick_outcome a (mem_limit r)).
Proof.
  intros Hl tm' a. unfold monitor_tick.
  rewrite (bind_ok _ _ _ _ _ _ (record_sample_eq r tm)), after_nil.
  fold (tick_state r tm). fold tm'.
  rewrite (bind_ok _ _ _ _ _ _ (smooth_eq tm' (append_sample_nonempty _ _))),
    after_nil.
  fold (tick_smoothed r tm). fold a.
  rewrite (bind_ok _ _ _ _ _ _ (export_gauges_eq a tm')).
  rewrite (bind_ok _ _ _ _ _ _ (grow_memory_eq bot_name c a _ tm' Hl)),
    after_after.
  rewrite (bind_ok _ _ _ _ _ _ (grow_cpu_eq bot_name c a tm')), after_after.
  rewrite (bind_ok _ _ _ _ _ _ (restart_container_eq bot_name c a _ tm' Hl)),
    after_after.
  rewrite (scale_out_eq _ _ tm' Hl).
  unfold after, trace, state, outcome. simpl.
  by rewrite <- !app_assoc.
Qed.

Lemma monitor_tick_zero_limit bot_name c r (tm : TaskManager F) :
  mem_limit r = 0%Z ->
  monitor_tick post bot_name c r tm
  = (gauges_trace (tick_smoothed r tm), tick_state r tm,
     inl ZeroDivisionError).
Proof.
  intros Hl. unfold monitor_tick.
  rewrite (bind_ok _ _ _ _ _ _ (record_sample_eq r tm)), after_nil.
  fold (tick_state r tm).
  rewrite (bind_ok _ _ _ _ _ _
             (smooth_eq (tick_state r tm) (append_sample_nonempty _ _))),
    after_nil.
  fold (tick_smoothed r tm).
  rewrite (bind_ok _ _ _ _ _ _ (export_gauges_eq _ (tick_state r tm))).
  unfold grow_memory. rewrite Hl.
  rewrite (bind_raise (bind _ _) _ _ [] (tick_state r tm) ZeroDivisionError).
  - reflexivity.
  - by apply bind_raise.
Qed.

Lemma monitor_tick_state bot_name c r (tm : TaskManager F) :
  state (monitor_tick post bot_name c r tm) = tick_state r tm.
Proof.
  destruct (decide (mem_limit r = 0%Z)) as [Hz|Hnz].
  - by rewrite monitor_tick_zero_limit.
  - by rewrite monitor_tick_eq.
Qed.

Lemma trace_tick bot_name c r (tm : TaskManager F) :
  mem_limit r <> 0%Z ->
  trace (monitor_tick post bot_name c r tm)
  = gauges_trace (tick_smoothed r tm)
    ++ grow_memory_trace post (tick_state r tm) bot_name c
         (tick_smoothed r tm) (mem_limit r)
    ++ grow_cpu_trace post (tick_state r tm) bot_name c (tick_smoothed r tm)
    ++ restart_trace post (tick_state r tm) bot_name c (tick_smoothed r tm)
         (mem_limit r)
    ++ scale_out_trace post (tick_state r tm) (tick_smoothed r tm)
         (mem_limit r).
Proof. intros Hl. by rewrite monitor_tick_eq. Qed.

(** An iteration raises [ZeroDivisionError] when the limit read is 0 and
    [AttributeError] when the scale-out is due; otherwise it returns. *)
Lemma outcome_tick bot_name c r (tm : TaskManager F) :
  outcome (monitor_tick post bot_name c r tm)
  = if (mem_limit r =? 0)%Z then inl ZeroDivisionError
    else tick_outcome (tick_smoothed r tm) (mem_limit r).
Proof.
  destruct (Z.eqb_spec (mem_limit r) 0) as [Hz|Hnz].
  - by rewrite monitor_tick_zero_limit.
  - by rewrite monitor_tick_eq.
Qed.

(** *** The log rows and runtime calls of an iteration *)

Lemma quiet_db_rows :
  quiet (fun e : Event F =>
           match e with DbInsert row => Some row | _ => None end).
Proof. done. Qed.

Lemma quiet_action_of : quiet (@action_of (float F)).
Proof. done. Qed.

Lemma quiet_updates :
  quiet (fun e : Event F =>
           match e with
           | ContainerUpdateMem _ _ | ContainerUpdateCpu _ _ => Some e
           | _ => None
           end).
Proof. done. Qed.

Lemma omap_alert {X} (f : Event F -> option X) (tm : TaskManager F) message :
  quiet f -> omap f (alert_trace post tm message) = [].
Proof.
  intros (_ & Hpost & Hout). unfold alert_trace.
  destruct (webhook_url tm) as [url|]; [|done].
  destruct (truthy (Some url)); [|done].
  destruct (post url message); simpl; by rewrite ?Hpost, ?Hout.
Qed.

Lemma omap_action {X} (f : Event F -> option X) tm message runtime :
  quiet f ->
  omap f (action_trace post tm message runtime)
  = omap f (DbInsert message :: runtime).
Proof.
  intros Hf. unfold action_trace. by rewrite omap_app, omap_alert.
Qed.

Lemma omap_tick {X} (f : Event F -> option X) bot_name c r
    (tm : TaskManager F) :
  quiet f ->
  mem_limit r <> 0%Z ->
  omap f (trace (monitor_tick post bot_name c r tm))
  = omap f (skeleton bot_name c (tick_smoothed r tm) (mem_limit r)).
Proof.
  intros Hf Hl. rewrite trace_tick by done.
  unfold skeleton, grow_memory_trace, grow_cpu_trace, restart_trace,
    scale_out_trace.
  rewrite !omap_app.
  assert (omap f (gauges_trace (tick_smoothed r tm)) = []) as ->.
  { destruct Hf as (Hg & _ & _). simpl. by rewrite !Hg. }
  destruct (grow_memory_due _ _), (grow_cpu_due _), (restart_due _ _),
    (scale_out_due _ _); by rewrite ?omap_action.
Qed.

Lemma omap_tick_zero_limit {X} (f : Event F -> option X) bot_name c r
    (tm : TaskManager F) :
  quiet f ->
  mem_limit r = 0%Z ->
  omap f (trace (monitor_tick post bot_name c r tm)) = [].
Proof.
  intros (Hg & _ & _) Hl. rewrite monitor_tick_zero_limit by done.
  unfold trace. simpl. by rewrite !Hg.
Qed.

Lemma db_rows_skeleton bot_name c (a : Smoothed F) mem_limit :
  db_rows (skeleton bot_name c a mem_limit)
  = message_of bot_name <$> policy a mem_limit.
Proof.
  unfold skeleton, policy.
  destruct (grow_memory_due _ _), (grow_cpu_due _), (restart_due _ _),
    (scale_out_due _ _); reflexivity.
Qed.

Lemma actions_of_skeleton bot_name c (a : Smoothed F) mem_limit :
  actions_of (skeleton bot_name c a mem_limit) = runtime_policy a mem_limit.
Proof.
  unfold skeleton, runtime_policy.
  destruct (grow_memory_due _ _), (grow_cpu_due _), (restart_due _ _),
    (scale_out_due _ _); reflexivity.
Qed.

(** The log rows of an iteration are the messages of the decisions taken. *)
Lemma db_rows_tick bot_name c r (tm : TaskManager F) :
  db_rows (trace (monitor_tick post bot_name c r tm))
  = if (mem_limit r =? 0)%Z then []
    else message_of bot_name <$> policy (tick_smoothed r tm) (mem_limit r).
Proof.
  unfold db_rows. destruct (Z.eqb_spec (mem_limit r) 0) as [Hz|Hnz].
  - by apply omap_tick_zero_limit.
  - rewrite (omap_tick _ _ _ _ _ quiet_db_rows Hnz). apply db_rows_skeleton.
Qed.

(** The runtime calls of an iteration are those of the first three
    decisions taken. *)
Lemma actions_of_tick bot_name c r (tm : TaskManager F) :
  actions_of (trace (monitor_tick post bot_name c r tm))
  = if (mem_limit r =? 0)%Z then []
    else runtime_policy (tick_smoothed r tm) (mem_limit r).
Proof.
  unfold actions_of. destruct (Z.eqb_spec (mem_limit r) 0) as [Hz|Hnz].
  - by apply omap_tick_zero_limit.
  - rewrite (omap_tick _ _ _ _ _ quiet_action_of Hnz).
    apply actions_of_skeleton.
Qed.

Lemma updates_of_tick bot_name c r (tm : TaskManager F) :
  updates_of (trace (monitor_tick post bot_name c r tm))
  = if (mem_limit r =? 0)%Z then []
    else
      (if grow_memory_due (tick_smoothed r tm) (mem_limit r)
       then [ContainerUpdateMem (c_id c) (new_mem_limit F (mem_limit r))]
       else [])
      ++ (if grow_cpu_due (tick_smoothed r tm)
          then [ContainerUpdateCpu (c_id c)
                  (new_cpu_quota (tick_smoothed r tm))]
          else []).
Proof.
  unfold updates_of. destruct (Z.eqb_spec (mem_limit r) 0) as [Hz|Hnz].
  - by apply omap_tick_zero_limit.
  - rewrite (omap_tick _ _ _ _ _ quiet_updates Hnz). unfold skeleton.
    destruct (grow_memory_due _ _), (grow_cpu_due _), (restart_due _ _),
      (scale_out_due _ _); reflexivity.
Qed.

Lemma elem_of_policy (x : Action) (a : Smoothed F) (mem_limit : Z) :
  x ∈ policy a mem_limit
  <-> match x with
      | GrowMemory => grow_memory_due a mem_limit
      | GrowCpu => grow_cpu_due a
      | RestartContainer => restart_due a mem_limit
      | ScaleOut => scale_out_due a mem_limit
      end = true.
Proof.
  clear post. unfold policy.
  destruct (grow_memory_due a mem_limit), (grow_cpu_due a),
    (restart_due a mem_limit), (scale_out_due a mem_limit), x; simpl;
    rewrite ?elem_of_cons, ?elem_of_nil; intuition congruence.
Qed.

Lemma elem_of_runtime_policy (x : Action) (a : Smoothed F) (mem_limit : Z) :
  x ∈ runtime_policy a mem_limit
  <-> match x with
      | GrowMemory => grow_memory_due a mem_limit
      | GrowCpu => grow_cpu_due a
      | RestartContainer => restart_due a mem_limit
      | ScaleOut => false
      end = true.
Proof.
  clear post. unfold runtime_policy.
  destruct (grow_memory_due a mem_limit), (grow_cpu_due a),
    (restart_due a mem_limit), x; simpl;
    rewrite ?elem_of_cons, ?elem_of_nil; intuition congruence.
Qed.

(** The message of the scale-out is the message of no other action. *)
Lemma message_of_scale_out (bot_name : string) (x : Action) :
  message_of bot_name x = scale_message <-> x = ScaleOut.
Proof. clear post. destruct x; simpl; split; intros H; done. Qed.

Lemma scale_message_logged bot_name (a : Smoothed F) (mem_limit : Z) :
  scale_message ∈ message_of bot_name <$> policy a mem_limit
  <-> scale_out_due a mem_limit = true.
Proof.
  clear post. rewrite list_elem_of_fmap. split.
  - intros (x & Hx & Hin). symmetry in Hx.
    apply message_of_scale_out in Hx as ->. by apply elem_of_policy in Hin.
  - intros Hdue. exists ScaleOut. split; [done|]. by apply elem_of_policy.
Qed.

(** *** Iterations, loops and sequences *)

Lemma run_ticks_history (ts : list (Tick F)) (tm : TaskManager F) :
  load_history (run_ticks post ts tm)
  = Window.push_all 10 (tick_sample <$> ts) (load_history tm).
Proof.
  revert tm. induction ts as [|t ts IH]; intros tm; [done|].
  simpl. rewrite IH, monitor_tick_state. reflexivity.
Qed.

Lemma run_ticks_frame (ts : list (Tick F)) (tm : TaskManager F) :
  containers (run_ticks post ts tm) = containers tm
  /\ webhook_url (run_ticks post ts tm) = webhook_url tm
  /\ max_containers (run_ticks post ts tm) = max_containers tm.
Proof.
  revert tm. induction ts as [|t ts IH]; intros tm; [done|].
  simpl. destruct (IH (state (monitor_tick post (t_bot t) (t_container t)
                                (t_reading t) tm)))
    as (H1 & H2 & H3).
  rewrite H1, H2, H3, monitor_tick_state. done.
Qed.

Lemma gauges_of_tick bot_name c r (tm : TaskManager F) :
  take 4 (trace (monitor_tick post bot_name c r tm))
  = gauges_trace (tick_smoothed r tm).
Proof.
  destruct (decide (mem_limit r = 0%Z)) as [Hz|Hnz].
  - by rewrite monitor_tick_zero_limit.
  - by rewrite trace_tick.
Qed.

(** The history an iteration works on, after any sequence of iterations from
    [__init__]: the last ten samples recorded. *)
Lemma tick_state_history n url (ts : list (Tick F)) (r : Reading F) :
  load_history (tick_state r (run_ticks post ts (init n url)))
  = drop (length ((tick_sample <$> ts) ++ [sample_of r]) - 10)
      ((tick_sample <$> ts) ++ [sample_of r]).
Proof.
  change (load_history (tick_state r (run_ticks post ts (init n url))))
    with (Window.push_all 10 [sample_of r]
            (load_history (run_ticks post ts (init n url)))).
  rewrite run_ticks_history, <- Window.push_all_app.
  change (load_history (init n url)) with (@nil (Sample F)).
  by rewrite Window.push_all_drop by (simpl; lia).
Qed.

(** The loop of one monitor is a sequence of its iterations, cut short at
    the first that raises. *)
Lemma monitor_loop_state bot_name c rs (tm : TaskManager F) :
  exists n, n <= length rs
    /\ state (monitor_loop post bot_name c rs tm)
       = run_ticks post (tick_of bot_name c <$> take n rs) tm
    /\ (outcome (monitor_loop post bot_name c rs tm) = inr tt ->
        n = length rs).
Proof.
  revert tm. induction rs as [|r rs IH]; intros tm; [by exists 0|].
  simpl. rewrite state_bind.
  destruct (monitor_tick post bot_name c r tm) as [[t s] [e|[]]] eqn:Htick.
  - exists 1. split; [simpl; lia|]. split.
    + simpl. by rewrite Htick.
    + unfold bind. rewrite Htick. done.
  - destruct (IH s) as (n & Hn & Hst & Hout).
    exists (S n). split; [simpl; lia|]. split.
    + simpl. rewrite Htick. exact Hst.
    + unfold bind. rewrite Htick.
      destruct (monitor_loop post bot_name c rs s) as [[t' s'] o] eqn:Hloop.
      simpl. intros Ho. f_equal. apply Hout. exact Ho.
Qed.

Lemma unregistered_monitor_returns bot_name rs (tm : TaskManager F) :
  containers tm !! bot_name = None ->
  _monitor_container post bot_name rs tm = ([], tm, inr tt).
Proof. intros Hnone. unfold _monitor_container, bind, get. by rewrite Hnone. Qed.

Lemma monitor_container_registered bot_name c rs (tm : TaskManager F) :
  containers tm !! bot_name = Some c ->
  _monitor_container post bot_name rs tm
  = monitor_loop post bot_name c rs tm.
Proof.
  intros Hc. unfold _monitor_container.
  rewrite (bind_ok _ _ tm [] tm tm) by reflexivity.
  by rewrite after_nil, Hc.
Qed.

(** *** Alerts and log rows *)

Lemma posts_alert (tm : TaskManager F) message :
  posts_of (alert_trace post tm message) = alerts_for tm [message].
Proof.
  unfold alert_trace, alerts_for.
  destruct (webhook_url tm) as [url|]; [|done].
  destruct (truthy (Some url)); [|done].
  by destruct (post url message).
Qed.

Lemma alerts_for_app (tm : TaskManager F) rows1 rows2 :
  alerts_for tm (rows1 ++ rows2) = alerts_for tm rows1 ++ alerts_for tm rows2.
Proof.
  unfold alerts_for. destruct (webhook_url tm) as [url|]; [|done].
  destruct (truthy (Some url)); [|done]. apply fmap_app.
Qed.

Lemma alerts_for_nil (tm : TaskManager F) : alerts_for tm [] = [].
Proof.
  unfold alerts_for. destruct (webhook_url tm) as [url|]; [|done].
  by destruct (truthy (Some url)).
Qed.

Lemma posts_action (tm : TaskManager F) message runtime :
  posts_of runtime = [] ->
  db_rows runtime = [] ->
  posts_of (action_trace post tm message runtime)
  = alerts_for tm (db_rows (action_trace post tm message runtime)).
Proof.
  intros Hp Hd.
  assert (db_rows (action_trace post tm message runtime) = [message])
    as ->.
  { unfold db_rows. rewrite (omap_action _ _ _ _ quiet_db_rows).
    change (message :: db_rows runtime = [message]). by rewrite Hd. }
  unfold action_trace, posts_of. rewrite omap_app.
  change (posts_of (alert_trace post tm message) ++ posts_of runtime
          = alerts_for tm [message]).
  by rewrite posts_alert, Hp, app_nil_r.
Qed.

(** *** The means *)

Lemma foldl_Zadd (acc : Z) (xs : list Z) :
  foldl Z.add acc xs = (acc + sum_int xs)%Z.
Proof.
  unfold sum_int. revert acc. induction xs as [|x xs IH]; intros acc.
  - simpl. lia.
  - simpl. rewrite (IH (acc + x)%Z), (IH (0 + x)%Z). lia.
Qed.

Lemma sum_int_cons (x : Z) (xs : list Z) :
  sum_int (x :: xs) = (x + sum_int xs)%Z.
Proof. unfold sum_int at 1. simpl. apply foldl_Zadd. Qed.

Lemma sum_int_total (xs : list Z) : sum_int xs = spec_total xs.
Proof.
  induction xs as [|x xs IH]; [done|]. rewrite sum_int_cons, IH. done.
Qed.

Lemma sum_float_total (xs : list (float F)) :
  sum_float xs = spec_float_total xs.
Proof.
  unfold sum_float, spec_float_total. generalize (of_int F 0).
  induction xs as [|x xs IH]; intros acc; [done|].
  simpl. rewrite reverse_cons, foldr_app. simpl. apply IH.
Qed.

Lemma mean_int_spec (xs : list Z) : @mean_int F xs = spec_mean_int xs.
Proof. unfold mean_int, spec_mean_int, len. by rewrite sum_int_total. Qed.

Lemma mean_float_spec (xs : list (float F)) :
  mean_float xs = spec_mean_float xs.
Proof.
  unfold mean_float, spec_mean_float, len. by rewrite sum_float_total.
Qed.


(** *** Nested thresholds *)

Lemma restart_due_nested (a : Smoothed F) (limit : Z) :
  Nested F ->
  restart_due a limit = true ->
  scale_out_due a limit = true.
Proof.
  clear post. intros (H1 & _ & H3 & _). unfold restart_due, scale_out_due.
  rewrite !orb_true_iff. intros [H|H]; [right; by apply H1|left; by apply H3].
Qed.

Lemma scale_out_due_nested (a : Smoothed F) (limit : Z) :
  Nested F ->
  scale_out_due a limit = true ->
  grow_memory_due a limit = true \/ grow_cpu_due a = true.
Proof.
  clear post. intros (_ & H2 & _ & H4).
  unfold scale_out_due, grow_memory_due, grow_cpu_due.
  rewrite !orb_true_iff. intros [H|H].
  - right. left. by apply H4.
  - left. left. by apply H2.
Qed.

Lemma monitor_tick_idle bot_name c r (tm : TaskManager F) :
  Nested F ->
  mem_limit r <> 0%Z ->
  grow_memory_due (tick_smoothed r tm) (mem_limit r) = false ->
  grow_cpu_due (tick_smoothed r tm) = false ->
  monitor_tick post bot_name c r tm
  = (gauges_trace (tick_smoothed r tm), tick_state r tm, inr tt).
Proof.
  intros HN Hl Hm Hc.
  set (a := tick_smoothed r tm) in *.
  assert (scale_out_due a (mem_limit r) = false) as Hs.
  { destruct (scale_out_due a (mem_limit r)) eqn:Hs; [|done].
    destruct (scale_out_due_nested a _ HN Hs); congruence. }
  assert (restart_due a (mem_limit r) = false) as Hr.
  { destruct (restart_due a (mem_limit r)) eqn:Hr; [|done].
    pose proof (restart_due_nested a _ HN Hr). congruence. }
  rewrite monitor_tick_eq by done. fold a.
  unfold grow_memory_trace, grow_cpu_trace, restart_trace, scale_out_trace,
    tick_outcome.
  by rewrite Hm, Hc, Hr, Hs, !app_nil_r.
Qed.

End Facts.
(** *** The thresholds in binary64 and in exact arithmetic *)

Lemma Binary64_nested : Nested Binary64.
Proof.
  unfold Nested.
  assert (c0_8 Binary64 = S754_finite false 7205759403792794 (-53)) as ->
    by (by vm_compute).
  assert (c0_85 Binary64 = S754_finite false 7656119366529843 (-53)) as ->
    by (by vm_compute).
  assert (c0_9 Binary64 = S754_finite false 8106479329266893 (-53)) as ->
    by (by vm_compute).
  assert (of_int Binary64 50000 = S754_finite false 6871947673600000 (-37))
    as -> by (by vm_compute).
  assert (of_int Binary64 60000 = S754_finite false 8246337208320000 (-37))
    as -> by (by vm_compute).
  assert (of_int Binary64 70000 = S754_finite false 4810363371520000 (-36))
    as -> by (by vm_compute).
  repeat split; apply Binary64_above; (left; lia) || (right; split; lia).
Qed.





(** *** Means and their bounds in exact arithmetic *)











(** *** How an iteration ends, and what it averages *)

Section Outcome.

Context {F : Arith}.

Lemma tick_outcome_raises (a : Smoothed F) (limit : Z) :
  tick_outcome a limit = inl (AttributeError no_scale_up)
  <-> scale_out_due a limit = true.
Proof. unfold tick_outcome. by destruct (scale_out_due a limit). Qed.

Lemma tick_outcome_returns (a : Smoothed F) (limit : Z) :
  tick_outcome a limit = inr tt <-> scale_out_due a limit = false.
Proof. unfold tick_outcome. by destruct (scale_out_due a limit). Qed.

Lemma smoothed_spec (h : list (Sample F)) :
  smoothed h
  = {| avg_cpu := spec_mean_int (s_cpu <$> h);
       avg_mem := spec_mean_int (s_mem <$> h);
       avg_system_cpu := spec_mean_float (s_system_cpu <$> h);
       avg_system_mem := spec_mean_float (s_system_mem <$> h) |}.
Proof. unfold smoothed. by rewrite !mean_int_spec, !mean_float_spec. Qed.

Lemma addresses_action post (tm : TaskManager F) message id runtime :
  Forall (addresses id) runtime ->
  Forall (addresses id) (action_trace post tm message runtime).
Proof.
  intros Hr. unfold action_trace, alert_trace. apply Forall_app. split.
  - destruct (webhook_url tm) as [url|]; [|done].
    destruct (truthy (Some url)); [|done].
    destruct (post url message); repeat constructor.
  - by constructor.
Qed.

Lemma addresses_tick post bot_name c r (tm : TaskManager F) :
  Forall (addresses (c_id c)) (trace (monitor_tick post bot_name c r tm)).
Proof.
  destruct (decide (mem_limit r = 0%Z)) as [Hz|Hnz].
  { rewrite monitor_tick_zero_limit by done. repeat constructor. }
  rewrite trace_tick by done.
  unfold grow_memory_trace, grow_cpu_trace, restart_trace, scale_out_trace.
  repeat (apply Forall_app; split).
  - repeat constructor.
  - destruct (grow_memory_due _ _); [|done].
    apply addresses_action. by repeat constructor.
  - destruct (grow_cpu_due _); [|done].
    apply addresses_action. by repeat constructor.
  - destruct (restart_due _ _); [|done].
    apply addresses_action. by repeat constructor.
  - destruct (scale_out_due _ _); [|done].
    by apply addresses_action.
Qed.

End Outcome.

(** ** The claims about the monitor *)

(** *** C2: what the thresholds are compared with *)

(** C2, counterexample.  After the readings [limit_drop_1; limit_drop_2] the
    averaged usage is 100 and the averaged limit 550: the claim's ratio is
    2/11, below every threshold, and the host memory is 0%, so by the claim
    no memory-driven decision is taken.  The code divides by the limit just
    read (100): its ratio is 1, it grows the memory, restarts the container
    and logs the scale-out. *)
Lemma memory_ratio_is_not_smoothed_over_smoothed :
  let r1 := limit_drop_1 Binary64 in
  let r2 := limit_drop_2 Binary64 in
  let rs := [r1; r2] in
  let tick :=
    monitor_tick no_failure "a" bot_a r2
      (state (monitor_tick no_failure "a" bot_a r1 two_bots)) in
  spec_memory_ratio rs = int_div Binary64 2 11
  /\ gtb (spec_memory_ratio rs) (c0_8 Binary64) = false
  /\ actions_of (trace tick) = [GrowMemory; RestartContainer]
  /\ db_rows (trace tick)
     = [ram_message "a"; restart_message "a"; scale_message].
Proof. repeat split; by vm_compute. Qed.

(** C2, amended.  In an iteration that reads [r] with a non-zero limit, the
    decisions are taken on the means of CPU usage, memory usage, host CPU%
    and host memory% over the history retained after [r] is recorded, and on
    the memory limit of [r] itself: the memory ratio compared with 0.8, 0.85
    and 0.9 is the mean memory usage divided by the limit just read.  The
    first three decisions show in the runtime calls; the scale-out shows in
    its log row and in the [AttributeError] that follows it.  The comparisons
    are those of the code's arithmetic. *)
Theorem decisions_use_means_and_current_limit {F : Arith}
    (post : string -> string -> PostAnswer) (bot_name : string)
    (c : Container) (r : Reading F) (tm : TaskManager F) :
  mem_limit r <> 0%Z ->
  let h := append_sample (sample_of r) (load_history tm) in
  let cpu := spec_mean_int (s_cpu <$> h) in
  let system_cpu := spec_mean_float (s_system_cpu <$> h) in
  let system_mem := spec_mean_float (s_system_mem <$> h) in
  let ratio := div (spec_mean_int (s_mem <$> h)) (of_int F (mem_limit r)) in
  let tick := monitor_tick post bot_name c r tm in
  (GrowMemory ∈ actions_of (trace tick)
   <-> gtb ratio (c0_8 F) = true \/ gtb system_mem (of_int F 85) = true)
  /\ (GrowCpu ∈ actions_of (trace tick)
      <-> gtb cpu (of_int F 50000) = true
          \/ gtb system_cpu (of_int F 85) = true)
  /\ (RestartContainer ∈ actions_of (trace tick)
      <-> gtb ratio (c0_9 F) = true \/ gtb cpu (of_int F 70000) = true)
  /\ (scale_message ∈ db_rows (trace tick)
      <-> gtb cpu (of_int F 60000) = true \/ gtb ratio (c0_85 F) = true)
  /\ (outcome tick = inl (AttributeError no_scale_up)
      <-> gtb cpu (of_int F 60000) = true \/ gtb ratio (c0_85 F) = true).
Proof.
  intros Hl h cpu system_cpu system_mem ratio tick. unfold tick.
  assert ((mem_limit r =? 0)%Z = false) as Hz by (by apply Z.eqb_neq).
  rewrite actions_of_tick, db_rows_tick, outcome_tick, Hz.
  rewrite !elem_of_runtime_policy, scale_message_logged, tick_outcome_raises.
  change (tick_smoothed r tm) with (smoothed h). rewrite smoothed_spec.
  unfold grow_memory_due, grow_cpu_due, restart_due, scale_out_due,
    memory_ratio.
  simpl. rewrite !orb_true_iff. done.
Qed.

(** The theorem at the second reading of the counterexample. *)
Lemma decisions_use_means_and_current_limit_witness :
  let r1 := limit_drop_1 Binary64 in
  let r2 := limit_drop_2 Binary64 in
  let h := append_sample (sample_of r2) [sample_of r1] in
  let ratio :=
    div (spec_mean_int (s_mem <$> h)) (of_int Binary64 100) in
  let tick :=
    monitor_tick webhook_down "a" bot_a r2
      (state (monitor_tick webhook_down "a" bot_a r1 two_bots)) in
  ratio = of_int Binary64 1
  /\ (GrowMemory ∈ actions_of (trace tick)
      <-> gtb ratio (c0_8 Binary64) = true
          \/ gtb (spec_mean_float (s_system_mem <$> h)) (of_int Binary64 85)
             = true).
Proof.
  split; [by vm_compute|].
  apply (decisions_use_means_and_current_limit webhook_down "a" bot_a
           (limit_drop_2 Binary64)
           (state (monitor_tick webhook_down "a" bot_a
                     (limit_drop_1 Binary64) two_bots)));
    by vm_compute.
Defined.

(** Four readings of the host CPU, 98.2%, 83.9%, 97.1% and 60.8%: their mean
    is 85 in exact arithmetic, where the CPU decision is not taken, and
    85.00000000000001 in binary64, where it is. *)
Example host_cpu_mean_of_85 :
  let ticks (F : Arith) :=
    tick_of "a" bot_a <$> (host_cpu_reading F <$> [982; 839; 971]%Z) in
  let tick (F : Arith) :=
    monitor_tick no_failure "a" bot_a (host_cpu_reading F 608)
      (run_ticks no_failure (ticks F) (init 3 None)) in
  actions_of (trace (tick Binary64)) = [GrowCpu]
  /\ take 1 (drop 2 (trace (tick Binary64)))
     = [@GaugeSet (float Binary64) "system_cpu_usage"
          (S754_finite false 5981343255101441 (-46))]
  /\ of_int Binary64 85 = S754_finite false 5981343255101440 (-46)
  /\ actions_of (trace (tick Exact)) = [].
Proof. repeat split; by vm_compute. Qed.

(** *** C3: the four checks in one iteration *)


(** *** C4: the load history is a window of ten *)

(** C4.  From the empty history of [__init__], after any sequence of
    iterations the load history holds at most ten samples, and they are the
    last ten recorded, in the order recorded: after [10 + k] samples the
    first [k] are gone. *)
Theorem load_history_keeps_last_ten {F : Arith}
    (post : string -> string -> PostAnswer) (max_containers : Z)
    (webhook_url : option string) (ts : list (Tick F)) :
  let h := load_history (run_ticks post ts (init max_containers webhook_url)) in
  let samples := tick_sample <$> ts in
  length h <= 10
  /\ h = drop (length samples - 10) samples
  /\ forall k, length samples = 10 + k -> h = drop k samples /\ length h = 10.
Proof.
  intros h samples. unfold h. rewrite run_ticks_history.
  change (load_history (init max_containers webhook_url))
    with (@nil (Sample F)).
  fold samples.
  split; [apply Window.push_all_length; simpl; lia|].
  rewrite Window.push_all_drop by (simpl; lia). rewrite app_nil_l.
  split; [done|]. intros k Hk. rewrite Hk.
  replace (10 + k - 10) with k by lia. split; [done|].
  rewrite length_drop. lia.
Qed.

Example load_history_eleven :
  s_cpu <$> load_history
              (run_ticks no_failure (@eleven_ticks Binary64) (init 3 None))
  = [20; 30; 40; 50; 60; 70; 80; 90; 100; 110]%Z.
Proof. by vm_compute. Qed.

(** *** C5: the smoothed values are means over the retained samples *)

(** C5, counterexample.  The claim's sequence on the code, whose window is
    the constant 10: after the CPU samples 10, 20 and 30 the exported mean is
    20; the sample 40 evicts nothing, the history holds the four samples and
    the exported mean is 25, not 30. *)
Lemma fourth_sample_evicts_nothing :
  let tick n :=
    monitor_tick no_failure "a" bot_a
      (reading Binary64 (10 * Z.of_nat n) 100 1000 10 10)
      (run_ticks no_failure (take (n - 1) eleven_ticks) (init 3 None)) in
  take 1 (trace (tick 3)) = [GaugeSet "bot_cpu_usage" (of_int Binary64 20)]
  /\ s_cpu <$> load_history (state (tick 3)) = [10; 20; 30]%Z
  /\ take 1 (trace (tick 4)) = [GaugeSet "bot_cpu_usage" (of_int Binary64 25)]
  /\ s_cpu <$> load_history (state (tick 4)) = [10; 20; 30; 40]%Z
  /\ of_int Binary64 25 <> of_int Binary64 30.
Proof. repeat split; by vm_compute. Qed.

(** C5, amended.  In the iteration that follows any sequence of iterations,
    the four values exported to the gauges, which are the values the
    decisions are taken on, are the arithmetic means (sum over count, no
    weights) of the four fields over the samples retained then: the last ten
    recorded, the one just read included. *)
Theorem smoothed_values_are_means_of_retained_samples {F : Arith}
    (post : string -> string -> PostAnswer) (max_containers : Z)
    (webhook_url : option string) (ts : list (Tick F)) (bot_name : string)
    (c : Container) (r : Reading F) :
  let tm := run_ticks post ts (init max_containers webhook_url) in
  let samples := (tick_sample <$> ts) ++ [sample_of r] in
  let retained := drop (length samples - 10) samples in
  let a := {| avg_cpu := spec_mean_int (s_cpu <$> retained);
              avg_mem := spec_mean_int (s_mem <$> retained);
              avg_system_cpu := spec_mean_float (s_system_cpu <$> retained);
              avg_system_mem := spec_mean_float (s_system_mem <$> retained) |}
  in
  let tick := monitor_tick post bot_name c r tm in
  load_history (state tick) = retained
  /\ take 4 (trace tick)
     = [GaugeSet "bot_cpu_usage" (avg_cpu a);
        GaugeSet "bot_mem_usage" (avg_mem a);
        GaugeSet "system_cpu_usage" (avg_system_cpu a);
        GaugeSet "system_mem_usage" (avg_system_mem a)]
  /\ db_rows (trace tick)
     = (if (mem_limit r =? 0)%Z then []
        else message_of bot_name <$> policy a (mem_limit r))
  /\ actions_of (trace tick)
     = (if (mem_limit r =? 0)%Z then []
        else runtime_policy a (mem_limit r)).
Proof.
  intros tm samples retained a tick. unfold tick.
  assert (load_history (tick_state r tm) = retained) as Hh
    by apply tick_state_history.
  assert (tick_smoothed r tm = a) as Ha.
  { unfold tick_smoothed. by rewrite Hh, smoothed_spec. }
  split; [by rewrite monitor_tick_state|].
  split; [by rewrite gauges_of_tick, Ha|].
  split; [by rewrite db_rows_tick, Ha|].
  by rewrite actions_of_tick, Ha.
Qed.

(** The claim's samples: the means of [10; 20; 30] and of [20; 30; 40] are 20
    and 30; on the code, 10 leaves the history with the eleventh sample. *)
Example means_by_hand :
  @spec_mean_int Binary64 [10; 20; 30]%Z = of_int Binary64 20
  /\ @spec_mean_int Binary64 [20; 30; 40]%Z = of_int Binary64 30
  /\ take 1 (trace (monitor_tick no_failure "a" bot_a
                      (reading Binary64 110 100 1000 10 10)
                      (run_ticks no_failure (take 10 eleven_ticks)
                         (init 3 None))))
     = [GaugeSet "bot_cpu_usage" (of_int Binary64 65)].
Proof. repeat split; by vm_compute. Qed.

(** *** C6: scaling out and the capacity *)

(** C6.  The manager [two_bots] holds two containers and its maximum is two.
    An iteration that reads a CPU usage of 65000 alerts, logs the scale-out
    and then raises [AttributeError] at [self._scale_up]; it does the same
    when the maximum is five.  On the fleet path, at the maximum and under a
    memory load of 90%, [auto_scale_bots] starts nothing and returns. *)
Theorem scale_out_at_capacity :
  let r := reading Binary64 65000 100 1000 10 10 in
  let tm : TaskManager Binary64 := two_bots in
  let roomy := with_registry 5 (containers tm) tm in
  Z.of_nat (size (containers tm)) = max_containers tm
  /\ monitor_tick no_failure "a" bot_a r tm
     = ([GaugeSet "bot_cpu_usage" (of_int Binary64 65000);
         GaugeSet "bot_mem_usage" (of_int Binary64 100);
         GaugeSet "system_cpu_usage" (of_int Binary64 10);
         GaugeSet "system_mem_usage" (of_int Binary64 10);
         HttpPost "http://hook" (cpu_message "a");
         DbInsert (cpu_message "a");
         ContainerUpdateCpu "id-a" 78000;
         HttpPost "http://hook" scale_message;
         DbInsert scale_message],
        set_load_history (fun _ => [sample_of r]) tm,
        inl (AttributeError no_scale_up))
  /\ trace (monitor_tick no_failure "a" bot_a r roomy)
     = trace (monitor_tick no_failure "a" bot_a r tm)
  /\ outcome (monitor_tick no_failure "a" bot_a r roomy)
     = inl (AttributeError no_scale_up)
  /\ ShadowBot.auto_scale_bots 10 90 1234 0 None ShadowBot.full_registry
     = ([ShadowBot.GaugeSet "system_cpu_usage" 10;
         ShadowBot.GaugeSet "system_mem_usage" 90;
         ShadowBot.Stdout "Dostosowano liczbę botów. Aktualna liczba: 2"],
        ShadowBot.full_registry, inr tt).
Proof. repeat split; vm_compute; reflexivity. Qed.

(** *** C7: the arguments of the resize calls *)

(** C7, counterexample.  Container [a] has a CPU quota of 50000; an iteration
    reads a CPU usage of 50001, a memory usage of 950 and a limit of 1001.
    The new memory limit passed is 1201, which is not 1.2 * 1001; the new CPU
    quota passed is 60001, where 1.2 times the current quota, truncated, is
    60000. *)
Lemma resize_is_not_1_2_times_current :
  let r := reading Binary64 50001 950 1001 10 10 in
  updates_of (trace (monitor_tick no_failure "a" bot_a r two_bots))
  = [ContainerUpdateMem "id-a" "1201"; ContainerUpdateCpu "id-a" 60001]
  /\ of_int Binary64 1201 <> mul (of_int Binary64 1001) (c1_2 Binary64)
  /\ to_int (mul (of_int Binary64 (c_cpu_quota bot_a)) (c1_2 Binary64))
     = 60000%Z.
Proof. repeat split; by vm_compute. Qed.

(** C7, amended.  When the memory condition holds, the limit passed to
    [container.update] is the decimal string of [mem_limit * 1.2] truncated
    to an integer, where [mem_limit] is the limit read in this iteration and
    the product is the float product.  When the CPU condition holds, the
    quota passed is [avg_cpu * 1.2] truncated to an integer, where [avg_cpu]
    is the mean CPU usage over the retained samples.  The limit and the quota
    the container has do not enter: another handle of the same container
    gets the same calls. *)
Theorem resize_arguments {F : Arith}
    (post : string -> string -> PostAnswer) (bot_name : string)
    (c c' : Container) (r : Reading F) (tm : TaskManager F) :
  mem_limit r <> 0%Z ->
  let a := tick_smoothed r tm in
  let h := append_sample (sample_of r) (load_history tm) in
  let new_limit := to_int (mul (of_int F (mem_limit r)) (c1_2 F)) in
  let new_quota := to_int (mul (spec_mean_int (s_cpu <$> h)) (c1_2 F)) in
  updates_of (trace (monitor_tick post bot_name c r tm))
  = (if grow_memory_due a (mem_limit r)
     then [ContainerUpdateMem (c_id c) (str new_limit)] else [])
    ++ (if grow_cpu_due a
        then [ContainerUpdateCpu (c_id c) new_quota] else [])
  /\ (c_id c' = c_id c ->
      updates_of (trace (monitor_tick post bot_name c' r tm))
      = updates_of (trace (monitor_tick post bot_name c r tm))).
Proof.
  intros Hl a h new_limit new_quota.
  assert ((mem_limit r =? 0)%Z = false) as Hz by (by apply Z.eqb_neq).
  rewrite !updates_of_tick, Hz. fold a. split.
  - unfold new_cpu_quota, new_mem_limit, new_quota, a.
    change (tick_smoothed r tm) with (smoothed h).
    by rewrite smoothed_spec.
  - by intros ->.
Qed.

(** The theorem at the reading of the counterexample. *)
Lemma resize_arguments_witness :
  let r := reading Binary64 50001 950 1001 10 10 in
  updates_of (trace (monitor_tick webhook_down "a" bot_a r two_bots))
  = [ContainerUpdateMem "id-a"
       (str (to_int (mul (of_int Binary64 1001) (c1_2 Binary64))));
     ContainerUpdateCpu "id-a"
       (to_int (mul (@spec_mean_int Binary64 [50001]%Z) (c1_2 Binary64)))].
Proof.
  intros r.
  destruct (resize_arguments webhook_down "a" bot_a bot_a r two_bots)
    as [H _]; [by vm_compute|].
  exact H.
Defined.

(** The products are float products: for a limit of 2^63 - 4096 the limit
    passed is not the truncated exact product, which ends in 054; and the
    CPU readings 50000, 50000 and 50005 give a quota of 60001, where the
    exact mean times 1.2 is 60002. *)
Example resize_in_binary64 :
  let ticks (F : Arith) :=
    replicate 2 (tick_of "a" bot_a (reading F 50000 100 1000 10 10)) in
  let tick (F : Arith) :=
    monitor_tick no_failure "a" bot_a (reading F 50005 100 1000 10 10)
      (run_ticks no_failure (ticks F) (init 3 None)) in
  new_mem_limit Binary64 (2 ^ 63 - 4096) = "11068046444225726464"
  /\ new_mem_limit Exact (2 ^ 63 - 4096) = "11068046444225726054"
  /\ updates_of (trace (tick Binary64)) = [ContainerUpdateCpu "id-a" 60001]
  /\ updates_of (trace (tick Exact)) = [ContainerUpdateCpu "id-a" 60002].
Proof. repeat split; by vm_compute. Qed.

(** *** C8: the webhook and the log *)

(** C8, counterexample.  The webhook answers 500.  [requests.post] returns
    the response, which [_send_webhook_alert] drops: nothing is caught and
    nothing is printed, so the failed delivery leaves no local trace. *)
Lemma non_2xx_answer_is_not_reported :
  _send_webhook_alert webhook_500 (ram_message "a") (@two_bots (float Binary64))
  = ([HttpPost "http://hook" (ram_message "a")], two_bots, inr tt)
  /\ _send_webhook_alert webhook_500 (ram_message "a") (@two_bots (float Binary64))
     = _send_webhook_alert no_failure (ram_message "a") two_bots.
Proof. split; vm_compute; reflexivity. Qed.

(** C8, amended.  When the POST returns or raises, [_send_webhook_alert]
    returns normally and leaves the manager as it was: without a webhook URL
    it makes no call; when the POST raises, the exception is caught and
    reported on stdout; when the POST returns, the response is dropped
    whatever its status.  So the rows an iteration writes to the log are the
    same whatever the webhook does, they are the messages of the decisions
    taken, and every action carried out has its row. *)
Theorem alert_failure_does_not_block_the_log {F : Arith}
    (post : string -> string -> PostAnswer) (message bot_name : string)
    (c : Container) (r : Reading F) (tm : TaskManager F) :
  let alert := _send_webhook_alert post message tm in
  let tick := monitor_tick post bot_name c r tm in
  (outcome alert = inr tt /\ state alert = tm)
  /\ (truthy (webhook_url tm) = false -> trace alert = [])
  /\ (forall url e,
        webhook_url tm = Some url -> truthy (Some url) = true ->
        post url message = PostRaises e ->
        trace alert
        = [HttpPost url message;
           Stdout ("Błąd podczas wysyłania webhooka: " +:+ exn_str e)])
  /\ (forall url status,
        webhook_url tm = Some url -> truthy (Some url) = true ->
        post url message = PostResponds status ->
        trace alert = [HttpPost url message])
  /\ db_rows (trace tick)
     = db_rows (trace (monitor_tick no_failure bot_name c r tm))
  /\ db_rows (trace tick)
     = (if (mem_limit r =? 0)%Z then []
        else message_of bot_name
             <$> policy (tick_smoothed r tm) (mem_limit r))
  /\ (forall x, x ∈ actions_of (trace tick) ->
                message_of bot_name x ∈ db_rows (trace tick)).
Proof.
  intros alert tick. unfold alert, tick. rewrite alert_eq.
  change (trace (alert_trace post tm message, tm, inr tt))
    with (alert_trace post tm message).
  split; [done|]. split.
  { unfold alert_trace.
    destruct (webhook_url tm) as [url|]; [|done]. by intros ->. }
  split.
  { intros url e Hurl Htruthy Hfail. unfold alert_trace.
    by rewrite Hurl, Htruthy, Hfail. }
  split.
  { intros url status Hurl Htruthy Hok. unfold alert_trace.
    by rewrite Hurl, Htruthy, Hok. }
  rewrite !db_rows_tick, actions_of_tick.
  split; [done|]. split; [done|].
  destruct (mem_limit r =? 0)%Z; intros x Hx; [by apply elem_of_nil in Hx|].
  apply list_elem_of_fmap_2. apply elem_of_policy.
  apply elem_of_runtime_policy in Hx. by destruct x.
Qed.

Example log_rows_with_webhook_down :
  trace (monitor_tick webhook_down "a" bot_a
           (reading Binary64 0 950 1000 10 10) two_bots)
  = [GaugeSet "bot_cpu_usage" (of_int Binary64 0);
     GaugeSet "bot_mem_usage" (of_int Binary64 950);
     GaugeSet "system_cpu_usage" (of_int Binary64 10);
     GaugeSet "system_mem_usage" (of_int Binary64 10);
     HttpPost "http://hook" (ram_message "a");
     Stdout "Błąd podczas wysyłania webhooka: connection refused";
     DbInsert (ram_message "a");
     ContainerUpdateMem "id-a" "1200";
     HttpPost "http://hook" (restart_message "a");
     Stdout "Błąd podczas wysyłania webhooka: connection refused";
     DbInsert (restart_message "a");
     ContainerRestart "id-a";
     HttpPost "http://hook" scale_message;
     Stdout "Błąd podczas wysyłania webhooka: connection refused";
     DbInsert scale_message].
Proof. by vm_compute. Qed.

(** *** C9: one load history for all monitors *)

(** C9, counterexample.  On a manager with the containers [a] and [b], an
    iteration of [b]'s monitor that reads a host CPU of 80% decides nothing.
    After one iteration of [a]'s monitor, which read a host CPU of 100%, the
    load history has changed and the same iteration of [b]'s monitor averages
    the host CPU to 90%: it resizes the CPU quota of [b]. *)
Lemma load_history_is_shared_between_monitors :
  let ra := host_cpu_reading Binary64 1000 in
  let rb := host_cpu_reading Binary64 800 in
  let after_a := state (monitor_tick no_failure "a" bot_a ra two_bots) in
  load_history after_a <> load_history (@two_bots (float Binary64))
  /\ db_rows (trace (monitor_tick no_failure "b" bot_b rb two_bots)) = []
  /\ db_rows (trace (monitor_tick no_failure "b" bot_b rb after_a))
     = [cpu_message "b"]
  /\ actions_of (trace (monitor_tick no_failure "b" bot_b rb after_a))
     = [GrowCpu]
  /\ take 1 (drop 2 (trace (monitor_tick no_failure "b" bot_b rb after_a)))
     = [GaugeSet "system_cpu_usage" (of_int Binary64 90)].
Proof. repeat split; by vm_compute. Qed.

(** C9, amended.  The load history belongs to the [TaskManager], not to a
    monitor: an iteration of any monitor appends its sample to it.  After an
    iteration of [a]'s monitor, the next iteration of [b]'s monitor works on
    the history that holds [a]'s sample followed by [b]'s, and the averages
    it exports and decides on are taken over that history. *)
Theorem monitors_share_one_load_history {F : Arith}
    (post : string -> string -> PostAnswer) (a b : string)
    (ca cb : Container) (ra rb : Reading F) (tm : TaskManager F) :
  let after_a := state (monitor_tick post a ca ra tm) in
  let h := append_sample (sample_of rb)
             (append_sample (sample_of ra) (load_history tm)) in
  let tick_b := monitor_tick post b cb rb after_a in
  load_history after_a = append_sample (sample_of ra) (load_history tm)
  /\ load_history (state tick_b) = h
  /\ take 4 (trace tick_b) = gauges_trace (smoothed h)
  /\ db_rows (trace tick_b)
     = (if (mem_limit rb =? 0)%Z then []
        else message_of b <$> policy (smoothed h) (mem_limit rb))
  /\ actions_of (trace tick_b)
     = (if (mem_limit rb =? 0)%Z then []
        else runtime_policy (smoothed h) (mem_limit rb))
  /\ exists older, h = older ++ [sample_of ra; sample_of rb].
Proof.
  intros after_a h tick_b. unfold tick_b.
  assert (tick_smoothed rb after_a = smoothed h) as Ha.
  { unfold tick_smoothed, after_a. by rewrite monitor_tick_state. }
  split; [unfold after_a; by rewrite monitor_tick_state|].
  split; [unfold after_a; by rewrite !monitor_tick_state|].
  split; [by rewrite gauges_of_tick, Ha|].
  split; [by rewrite db_rows_tick, Ha|].
  split; [by rewrite actions_of_tick, Ha|].
  apply Window.push_push_last. lia.
Qed.

(** ** Further properties of the monitor *)

(** *** A monitor that has nothing to watch, or cannot go on *)

(** X17.  A monitor started for a name that is not in [self.containers]
    returns at once: it reads nothing, calls nothing and leaves the manager
    as it was. *)
Theorem monitor_of_unregistered_bot {F : Arith}
    (post : string -> string -> PostAnswer) (bot_name : string)
    (rs : list (Reading F)) (tm : TaskManager F) :
  containers tm !! bot_name = None ->
  _monitor_container post bot_name rs tm = ([], tm, inr tt).
Proof. intros Hnone. unfold _monitor_container, bind, get. by rewrite Hnone. Qed.

Lemma monitor_of_unregistered_bot_witness :
  _monitor_container no_failure "c" [reading Binary64 65000 100 1000 10 10]
    two_bots
  = ([], two_bots, inr tt).
Proof.
  apply (monitor_of_unregistered_bot no_failure "c"). vm_compute. reflexivity.
Defined.

(** X18.  A reading whose memory limit is 0 ends the monitor: the sample is
    recorded in the load history and the four gauges are set, then
    [avg_mem / mem_limit] raises [ZeroDivisionError], which leaves the loop;
    no alert is sent, nothing is logged, no runtime call is made, and the
    later readings are never taken. *)
Theorem zero_limit_ends_the_monitor {F : Arith}
    (post : string -> string -> PostAnswer) (bot_name : string)
    (c : Container) (r : Reading F) (rs : list (Reading F))
    (tm : TaskManager F) :
  containers tm !! bot_name = Some c ->
  mem_limit r = 0%Z ->
  _monitor_container post bot_name (r :: rs) tm
  = (gauges_trace (tick_smoothed r tm),
     set_load_history (append_sample (sample_of r)) tm,
     inl ZeroDivisionError).
Proof.
  intros Hc Hz. rewrite (monitor_container_registered _ _ c) by done.
  simpl. apply bind_raise. by apply monitor_tick_zero_limit.
Qed.

Lemma zero_limit_ends_the_monitor_witness :
  let r := reading Binary64 65000 100 0 10 10 in
  _monitor_container no_failure "a"
    [r; reading Binary64 65000 100 1000 10 10] two_bots
  = (gauges_trace (tick_smoothed r two_bots),
     set_load_history (append_sample (sample_of r)) two_bots,
     inl ZeroDivisionError).
Proof.
  apply (zero_limit_ends_the_monitor no_failure "a" bot_a
           (reading Binary64 65000 100 0 10 10)
           [reading Binary64 65000 100 1000 10 10] two_bots);
    vm_compute; reflexivity.
Defined.

(** X19.  The first scale-out ends the monitor.  In an iteration whose limit
    is non-zero, [self._scale_up] raises [AttributeError] exactly when the
    scale-out condition holds, and the iteration returns otherwise.  When it
    raises, the alert and the log row of the scale-out are the last calls
    made, and the exception leaves the loop: the later readings are never
    taken. *)
Theorem scale_out_ends_the_monitor {F : Arith}
    (post : string -> string -> PostAnswer) (bot_name : string)
    (c : Container) (r : Reading F) (rs : list (Reading F))
    (tm : TaskManager F) :
  containers tm !! bot_name = Some c ->
  mem_limit r <> 0%Z ->
  let a := tick_smoothed r tm in
  let tick := monitor_tick post bot_name c r tm in
  (outcome tick = inl (AttributeError no_scale_up)
   <-> scale_out_due a (mem_limit r) = true)
  /\ (outcome tick = inr tt <-> scale_out_due a (mem_limit r) = false)
  /\ (scale_out_due a (mem_limit r) = true ->
      (exists before,
         trace tick
         = before ++ alert_trace post (tick_state r tm) scale_message
           ++ [DbInsert scale_message])
      /\ _monitor_container post bot_name (r :: rs) tm = tick).
Proof.
  intros Hc Hl a tick.
  assert ((mem_limit r =? 0)%Z = false) as Hz by (by apply Z.eqb_neq).
  unfold tick. rewrite outcome_tick, Hz. fold a.
  split; [apply tick_outcome_raises|].
  split; [apply tick_outcome_returns|].
  intros Hdue. split.
  - rewrite trace_tick by done. fold a.
    unfold scale_out_trace. rewrite Hdue. unfold action_trace.
    eexists. rewrite !app_assoc. reflexivity.
  - rewrite (monitor_container_registered _ _ c) by done.
    simpl. destruct (monitor_tick post bot_name c r tm) as [[t s] o] eqn:Htick.
    assert (o = inl (AttributeError no_scale_up)) as ->.
    { change o with (outcome (t, s, o)). rewrite <- Htick, outcome_tick, Hz.
      by apply tick_outcome_raises. }
    by apply bind_raise.
Qed.

Lemma scale_out_ends_the_monitor_witness :
  let r := reading Binary64 65000 100 1000 10 10 in
  _monitor_container no_failure "a" [r; reading Binary64 0 100 1000 10 10]
    two_bots
  = monitor_tick no_failure "a" bot_a r two_bots.
Proof.
  intros r.
  destruct (scale_out_ends_the_monitor no_failure "a" bot_a r
              [reading Binary64 0 100 1000 10 10] two_bots)
    as (_ & _ & H); [vm_compute; reflexivity|by vm_compute|].
  apply H. vm_compute. reflexivity.
Defined.

(** *** Alerts and log rows *)

(** X20.  In every iteration the webhook POSTs mirror the log rows: with a
    webhook URL configured, each message written to the log has been sent
    once, to that URL, in the same order (one attempt each, whether or not
    it raises); with no URL, or an empty one, no POST is made. *)
Theorem every_log_row_has_its_alert {F : Arith}
    (post : string -> string -> PostAnswer) (bot_name : string)
    (c : Container) (r : Reading F) (tm : TaskManager F) :
  let t := trace (monitor_tick post bot_name c r tm) in
  posts_of t
  = match webhook_url tm with
    | Some url =>
        if truthy (Some url) then (fun text => (url, text)) <$> db_rows t
        else []
    | None => []
    end.
Proof.
  intros t. fold (alerts_for tm (db_rows t)). unfold t.
  destruct (decide (mem_limit r = 0%Z)) as [Hz|Hnz].
  { rewrite monitor_tick_zero_limit by done.
    change ([] = alerts_for tm []). by rewrite alerts_for_nil. }
  rewrite trace_tick by done.
  set (tm' := tick_state r tm). set (a := tick_smoothed r tm).
  change (alerts_for tm) with (alerts_for tm').
  unfold posts_of, db_rows. rewrite !omap_app.
  fold (@posts_of (float F)). fold (@db_rows (float F)).
  rewrite !alerts_for_app.
  f_equal; [|f_equal; [|f_equal; [|f_equal]]].
  - change ([] = alerts_for tm' []). by rewrite alerts_for_nil.
  - unfold grow_memory_trace. destruct (grow_memory_due _ _).
    + by apply posts_action.
    + change ([] = alerts_for tm' []). by rewrite alerts_for_nil.
  - unfold grow_cpu_trace. destruct (grow_cpu_due _).
    + by apply posts_action.
    + change ([] = alerts_for tm' []). by rewrite alerts_for_nil.
  - unfold restart_trace. destruct (restart_due _ _).
    + by apply posts_action.
    + change ([] = alerts_for tm' []). by rewrite alerts_for_nil.
  - unfold scale_out_trace. destruct (scale_out_due _ _).
    + by apply posts_action.
    + change ([] = alerts_for tm' []). by rewrite alerts_for_nil.
Qed.

(** *** How the thresholds nest *)

(** X21.  The thresholds are nested, also in binary64: a container is never
    only restarted.  Whenever an iteration restarts the container, it has
    also resized it (memory or CPU quota) and it goes on to log the
    scale-out; and whenever it logs the scale-out, it has resized the
    container. *)
Theorem restart_comes_with_resize_and_scale_out
    (post : string -> string -> PostAnswer) (bot_name : string)
    (c : Container) (r : Reading Binary64) (tm : TaskManager Binary64) :
  let t := trace (monitor_tick post bot_name c r tm) in
  (RestartContainer ∈ actions_of t ->
   scale_message ∈ db_rows t
   /\ (GrowMemory ∈ actions_of t \/ GrowCpu ∈ actions_of t))
  /\ (scale_message ∈ db_rows t ->
      GrowMemory ∈ actions_of t \/ GrowCpu ∈ actions_of t).
Proof.
  intros t. unfold t. rewrite actions_of_tick, db_rows_tick.
  destruct (mem_limit r =? 0)%Z.
  { split; intros H; by apply elem_of_nil in H. }
  rewrite !elem_of_runtime_policy, scale_message_logged.
  pose proof (restart_due_nested (tick_smoothed r tm) (mem_limit r)
                Binary64_nested) as Hrestart.
  pose proof (scale_out_due_nested (tick_smoothed r tm) (mem_limit r)
                Binary64_nested) as Hscale.
  split; [|exact Hscale].
  intros H. split; [by apply Hrestart|]. by apply Hscale, Hrestart.
Qed.

(** *** Iterations that do nothing *)

(** X22.  An iteration in which neither resize condition holds, as the code
    evaluates them in binary64, only records the sample and sets the four
    gauges: it sends no alert, writes no log row and makes no runtime call,
    and the loop goes on.  The restart and scale-out conditions need not be
    checked: they cannot hold then. *)
Theorem idle_iteration_only_sets_the_gauges
    (post : string -> string -> PostAnswer) (bot_name : string)
    (c : Container) (r : Reading Binary64) (tm : TaskManager Binary64) :
  let a := tick_smoothed r tm in
  mem_limit r <> 0%Z ->
  grow_memory_due a (mem_limit r) = false ->
  grow_cpu_due a = false ->
  monitor_tick post bot_name c r tm
  = (gauges_trace a, set_load_history (append_sample (sample_of r)) tm,
     inr tt).
Proof.
  intros a Hl Hm Hc. by apply monitor_tick_idle; [apply Binary64_nested|..].
Qed.

Lemma idle_iteration_only_sets_the_gauges_witness :
  let r := reading Binary64 1000 100 1000 10 10 in
  monitor_tick webhook_down "a" bot_a r two_bots
  = (gauges_trace (tick_smoothed r two_bots),
     set_load_history (append_sample (sample_of r)) two_bots, inr tt).
Proof.
  apply (idle_iteration_only_sets_the_gauges webhook_down "a" bot_a
           (reading Binary64 1000 100 1000 10 10) two_bots);
    by vm_compute.
Defined.

(** *** Smoothing, in exact arithmetic *)






(** *** The first iteration *)

(** X25.  On an empty load history (the first iteration after [__init__])
    each average is the value just read over 1, so the four gauges and the
    four decisions are those of the instantaneous reading; the scale-out
    shows in its log row. *)
Theorem first_iteration_uses_the_raw_reading {F : Arith}
    (post : string -> string -> PostAnswer) (bot_name : string)
    (c : Container) (r : Reading F) (tm : TaskManager F) :
  load_history tm = [] ->
  mem_limit r <> 0%Z ->
  let t := trace (monitor_tick post bot_name c r tm) in
  let cpu := int_div F (cpu_usage r) 1 in
  let mem := int_div F (mem_usage r) 1 in
  let system_cpu := div (add (of_int F 0) (system_cpu_usage r)) (of_int F 1) in
  let system_mem := div (add (of_int F 0) (system_mem_usage r)) (of_int F 1) in
  let ratio := div mem (of_int F (mem_limit r)) in
  take 4 t
  = [GaugeSet "bot_cpu_usage" cpu; GaugeSet "bot_mem_usage" mem;
     GaugeSet "system_cpu_usage" system_cpu;
     GaugeSet "system_mem_usage" system_mem]
  /\ (GrowMemory ∈ actions_of t
      <-> gtb ratio (c0_8 F) = true \/ gtb system_mem (of_int F 85) = true)
  /\ (GrowCpu ∈ actions_of t
      <-> gtb cpu (of_int F 50000) = true
          \/ gtb system_cpu (of_int F 85) = true)
  /\ (RestartContainer ∈ actions_of t
      <-> gtb ratio (c0_9 F) = true \/ gtb cpu (of_int F 70000) = true)
  /\ (scale_message ∈ db_rows t
      <-> gtb cpu (of_int F 60000) = true \/ gtb ratio (c0_85 F) = true).
Proof.
  intros Hh Hl t cpu mem system_cpu system_mem ratio. unfold t.
  rewrite gauges_of_tick, actions_of_tick, db_rows_tick.
  apply Z.eqb_neq in Hl as ->.
  rewrite !elem_of_runtime_policy, scale_message_logged.
  assert (tick_smoothed r tm
          = {| avg_cpu := cpu; avg_mem := mem; avg_system_cpu := system_cpu;
               avg_system_mem := system_mem |}) as ->.
  { unfold tick_smoothed.
    change (load_history (tick_state r tm))
      with (append_sample (sample_of r) (load_history tm)).
    by rewrite Hh. }
  unfold grow_memory_due, grow_cpu_due, restart_due, scale_out_due,
    memory_ratio.
  simpl. rewrite !orb_true_iff. done.
Qed.

(** The theorem at a first reading of CPU usage 50001, and the values over 1
    in binary64. *)
Lemma first_iteration_uses_the_raw_reading_witness :
  let r := reading Binary64 50001 100 1000 10 10 in
  int_div Binary64 50001 1 = of_int Binary64 50001
  /\ div (add (of_int Binary64 0) (of_int Binary64 10)) (of_int Binary64 1)
     = of_int Binary64 10
  /\ (GrowCpu ∈ actions_of (trace (monitor_tick no_failure "a" bot_a r
                                     two_bots))
      <-> gtb (int_div Binary64 50001 1) (of_int Binary64 50000) = true
          \/ gtb (div (add (of_int Binary64 0) (of_int Binary64 10))
                    (of_int Binary64 1))
                (of_int Binary64 85) = true).
Proof.
  intros r. split; [by vm_compute|]. split; [by vm_compute|].
  destruct (first_iteration_uses_the_raw_reading no_failure "a" bot_a r
              two_bots) as (_ & _ & H & _);
    [reflexivity|by vm_compute|].
  exact H.
Defined.

(** *** What a monitor touches *)

(** X26.  The runtime calls of an iteration only concern the monitored
    container: every resize and every restart is addressed to its id.  There
    is at most one memory resize, one CPU resize and one restart, in this
    order. *)
Theorem runtime_calls_concern_the_monitored_container {F : Arith}
    (post : string -> string -> PostAnswer) (bot_name : string)
    (c : Container) (r : Reading F) (tm : TaskManager F) :
  let t := trace (monitor_tick post bot_name c r tm) in
  (forall e, e ∈ t ->
     match e with
     | ContainerUpdateMem id _ | ContainerUpdateCpu id _
     | ContainerRestart id => id = c_id c
     | _ => True
     end)
  /\ actions_of t `sublist_of` [GrowMemory; GrowCpu; RestartContainer].
Proof.
  intros t. unfold t. split.
  - intros e He.
    pose proof (addresses_tick post bot_name c r tm) as Hall.
    rewrite Forall_forall in Hall. exact (Hall e He).
  - rewrite actions_of_tick. unfold runtime_policy.
    destruct (mem_limit r =? 0)%Z,
      (grow_memory_due (tick_smoothed r tm) (mem_limit r)),
      (grow_cpu_due (tick_smoothed r tm)),
      (restart_due (tick_smoothed r tm) (mem_limit r));
      simpl; repeat constructor.
Qed.

(** X27.  Whatever its readings and however it ends, a monitor changes
    nothing of the manager but the load history: the registry of containers,
    the webhook URL and the maximum are left as they were, and the load
    history is the window over the samples of the iterations entered, which
    are all the readings when the monitor has not raised. *)
Theorem monitor_changes_only_the_load_history {F : Arith}
    (post : string -> string -> PostAnswer) (bot_name : string)
    (rs : list (Reading F)) (tm : TaskManager F) :
  let run := _monitor_container post bot_name rs tm in
  containers (state run) = containers tm
  /\ webhook_url (state run) = webhook_url tm
  /\ max_containers (state run) = max_containers tm
  /\ exists n,
       n <= length rs
       /\ load_history (state run)
          = Window.push_all 10 (sample_of <$> take n rs) (load_history tm)
       /\ (is_Some (containers tm !! bot_name) -> outcome run = inr tt ->
           n = length rs).
Proof.
  intros run. unfold run.
  destruct (containers tm !! bot_name) as [c|] eqn:Hc.
  - rewrite (monitor_container_registered _ _ c) by done.
    destruct (monitor_loop_state post bot_name c rs tm)
      as (n & Hn & -> & Hout).
    destruct (run_ticks_frame post (tick_of bot_name c <$> take n rs) tm)
      as (H1 & H2 & H3).
    repeat (split; [done|]).
    exists n. split; [done|]. split; [|by intros _].
    by rewrite run_ticks_history, <- list_fmap_compose.
  - rewrite unregistered_monitor_returns by done.
    repeat (split; [done|]).
    exists 0. split; [lia|]. split; [done|]. by intros [x Hx].
Qed.

End TaskMgr.
(** ** The task queue: [queue.PriorityQueue] over [heapq]

    [TaskManager.__init__] creates [self.task_queue = queue.PriorityQueue()].
    The queue keeps its items in a list ordered as a binary heap by the
    functions [heappush] and [heappop] of the Python standard library, which
    compare items with [<] only. *)

Module Heapq.

Section Heap.
Context {T : Type}.

(** [a < b] on the items of the heap. *)
Variable lt : T -> T -> bool.

(** [(pos - 1) >> 1]. *)
Definition parent (pos : nat) : nat := Nat.div2 (pos - 1).

(** The [while pos > startpos] loop of [_siftdown]; [pos] decreases at every
    turn, so [pos] turns are enough. *)
Fixpoint siftdown_loop (fuel : nat) (heap : list T) (startpos pos : nat)
    (newitem : T) : list T :=
  match fuel with
  | 0 => <[pos := newitem]> heap
  | S fuel =>
      if (startpos <? pos)%nat then
        let parentpos := parent pos in
        match heap !! parentpos with
        | Some parent =>
            if lt newitem parent then
              siftdown_loop fuel (<[pos := parent]> heap) startpos parentpos
                newitem
            else <[pos := newitem]> heap
        | None => heap
        end
      else <[pos := newitem]> heap
  end.

(** [_siftdown(heap, startpos, pos)]. *)
Definition _siftdown (heap : list T) (startpos pos : nat) : list T :=
  match heap !! pos with
  | Some newitem => siftdown_loop pos heap startpos pos newitem
  | None => heap
  end.

(** The [while childpos < endpos] loop of [_siftup]: the smaller child moves
    up until [pos] is a leaf; [pos] grows at every turn, so [len(heap)] turns
    are enough.  Returns the heap and the leaf reached. *)
Fixpoint siftup_loop (fuel : nat) (heap : list T) (pos : nat)
    : list T * nat :=
  match fuel with
  | 0 => (heap, pos)
  | S fuel =>
      let endpos := length heap in
      let childpos := (2 * pos + 1)%nat in
      if (childpos <? endpos)%nat then
        let rightpos := (childpos + 1)%nat in
        let childpos :=
          match heap !! childpos, heap !! rightpos with
          | Some lchild, Some rchild =>
              if lt lchild rchild then childpos else rightpos
          | _, _ => childpos
          end in
        match heap !! childpos with
        | Some child => siftup_loop fuel (<[pos := child]> heap) childpos
        | None => (heap, pos)
        end
      else (heap, pos)
  end.

(** [_siftup(heap, pos)]. *)
Definition _siftup (heap : list T) (pos : nat) : list T :=
  match heap !! pos with
  | Some newitem =>
      let '(heap, leaf) := siftup_loop (length heap) heap pos in
      _siftdown (<[leaf := newitem]> heap) pos leaf
  | None => heap
  end.

(** [heappush(heap, item)]. *)
Definition heappush (heap : list T) (item : T) : list T :=
  let heap := heap ++ [item] in
  _siftdown heap 0 (length heap - 1).

(** [heappop(heap)]: the item returned and the heap left; [None] when the
    heap is empty ([heap.pop()] raises [IndexError]). *)
Definition heappop (heap : list T) : option (T * list T) :=
  match last heap with
  | Some lastelt =>
      let heap := take (length heap - 1) heap in
      match heap with
      | returnitem :: _ => Some (returnitem, _siftup (<[0 := lastelt]> heap) 0)
      | [] => Some (lastelt, [])
      end
  | None => None
  end.

(** *** The heap order *)

(** [a <= b] as the heap sees it: not [b < a]. *)
Definition item_le (a b : T) : Prop := lt b a = false.




(** [newitem] is not above the children of [pos]. *)
Definition above (h : list T) (pos : nat) (newitem : T) : Prop :=
  forall c x, 0 < c -> parent c = pos -> h !! c = Some x -> item_le newitem x.


(** [<] is a strict weak order. *)
Hypothesis lt_asym : forall a b, lt a b = true -> lt b a = false.
Hypothesis le_trans :
  forall a b c, item_le a b -> item_le b c -> item_le a c.





(** **** Writing the item into its place *)




(** **** Moving the hole keeps the items *)



(** **** [_siftdown] *)



(** **** [_siftup] *)




(** **** [heappush] and [heappop] *)






End Heap.

End Heapq.

Module TaskQueue.

(** Modelled from the spec: the call that puts a task on the queue is not in
    the sources; a task carries a priority, its ordering key (lower first),
    a payload, and the timestamp of its enqueueing, which breaks the ties
    between equal priorities. *)
Record Task := {
  priority : Z;
  enqueued_at : Z;
  payload : string;
}.

(** Modelled from the spec: [a < b] on tasks, by the ordering key, then by
    the enqueue timestamp. *)
Definition task_lt (a b : Task) : bool :=
  (priority a <? priority b)%Z
  || ((priority a =? priority b)%Z && (enqueued_at a <? enqueued_at b)%Z).

(** [PriorityQueue._put] and [PriorityQueue._get] on [self.queue]; [get] on
    an empty queue blocks, which is [None] here. *)
Definition put (queue : list Task) (item : Task) : list Task :=
  Heapq.heappush task_lt queue item.

Definition get (queue : list Task) : option (Task * list Task) :=
  Heapq.heappop task_lt queue.

(** The queue after the tasks are put in order. *)
Definition put_all (items : list Task) (queue : list Task) : list Task :=
  foldl put queue items.

(** The tasks [n] calls of [get] return, in order, and the queue left. *)
Fixpoint get_n (n : nat) (queue : list Task) : list Task * list Task :=
  match n with
  | 0 => ([], queue)
  | S n =>
      match get queue with
      | Some (item, queue) =>
          let '(items, queue) := get_n n queue in (item :: items, queue)
      | None => ([], queue)
      end
  end.

(** The tasks put at the times 1, 2, ..., with the given priorities and
    payloads. *)
Definition tasks (items : list (Z * string)) : list Task :=
  imap (fun i '(p, name) =>
          {| priority := p; enqueued_at := Z.of_nat (S i); payload := name |})
       items.


(** [a] was enqueued before [b]. *)
Definition earlier (a b : Task) : Prop := (enqueued_at a < enqueued_at b)%Z.


(** *** The order of tasks *)








(** *** Ties *)




#[local] Instance earlier_antisymm : AntiSymm (=) earlier.
Proof. intros a b. unfold earlier. lia. Qed.


(** *** C10: the order in which tasks leave the queue *)



(** Priorities 5, 1, 3 come out as 1, 3, 5; four tasks of priority 1 come
    out as they went in; and a task of a lower priority value overtakes the
    tasks put before it. *)
Example queue_by_hand :
  priority <$> (get_n 3 (put_all (tasks [(5, "x"); (1, "y"); (3, "z")]%Z) [])).1
  = [1; 3; 5]%Z
  /\ payload
     <$> (get_n 4 (put_all (tasks [(1, "a"); (1, "b"); (1, "c"); (1, "d")]%Z)
                     [])).1
     = ["a"; "b"; "c"; "d"]
  /\ payload
     <$> (get_n 5 (put_all (tasks [(2, "a"); (2, "b"); (1, "c"); (2, "d");
                                   (1, "e")]%Z) [])).1
     = ["c"; "e"; "a"; "b"; "d"].
Proof. repeat split; vm_compute; reflexivity. Qed.

End TaskQueue.
